(** * dm2: the paginated list cache (DataStore mixin) and the orchestrator (AppStore)

    A shallow embedding of [src/mixins/DataStore/DataStore.js] and of the
    actions of [src/stores/AppStore.js] that the specification's properties
    talk about, followed by the properties themselves.

    Conventions of the embedding.
    - A MobX-State-Tree model is a record; an action is a function from the
      record to the record (and, where the source talks to the outside world,
      to the list of calls it made).
    - A [flow] is cut at its [yield]: the part before it is a function that
      returns the request and the variables that stay alive across the
      suspension, the part after it is a function of those variables and of
      the awaited value.
    - [guidGenerator()] is a source of randomness: the minted value is an
      argument of the function that calls it.
    - A JavaScript value that may be [undefined] or [null] where the source
      only asks [isDefined] of it is an [option]. *)

From Stdlib Require Import ZArith String List Bool Lia.
From stdpp Require Import base list strings pretty gmap fin_maps.
Import ListNotations.

Local Open Scope string_scope.
Local Open Scope list_scope.
Local Open Scope Z_scope.

(** JavaScript arrays. The stores have a property called [list], so the type
    of lists goes by the name the source uses for it. *)
Abbreviation array := Datatypes.list (only parsing).

(** ** JavaScript helpers *)

(** [Array.prototype.findIndex]: the index of the first element satisfying
    [p], or [-1]. *)
Fixpoint findIndex {A : Type} (p : A -> bool) (l : array A) : Z :=
  match l with
  | [] => -1
  | x :: r =>
      if p x then 0
      else let i := findIndex p r in if i <? 0 then -1 else i + 1
  end.

(** [arr.splice(index, 1)] for [index >= 0]: the array without the element at
    [index]; when [index] is past the end nothing is removed. *)
Definition splice1 {A : Type} (index : Z) (l : array A) : array A :=
  delete (Z.to_nat index) l.

(** Modelled from the spec: [isDefined] of [utils/utils] (not under src/): a
    value is defined when it is neither [undefined] nor [null]. *)
Definition isDefined {A : Type} (v : option A) : bool :=
  match v with Some _ => true | None => false end.

(** Truthiness of a number-or-undefined and of a string-or-undefined. *)
Definition truthy_num (v : option Z) : bool :=
  match v with Some n => negb (n =? 0) | None => false end.

Definition truthy_str (v : option string) : bool :=
  match v with Some s => negb (String.eqb s EmptyString) | None => false end.

(** A field value of a record; records are opaque to the stores but for the
    few keys they read. *)
Inductive Value : Type :=
| VNull
| VBool (b : bool)
| VNum (n : Z)
| VStr (s : string).

(** A plain object: its keys, in order, with their values. *)
Abbreviation Object := (array (string * Value)) (only parsing).

(** [obj[key]], [undefined] when the key is absent. *)
Fixpoint get_field (key : string) (fs : Object) : option Value :=
  match fs with
  | [] => None
  | (k, w) :: r => if String.eqb k key then Some w else get_field key r
  end.

(** [{...obj, [key]: v}]: an existing key keeps its place, a new one goes last. *)
Fixpoint set_field (key : string) (v : Value) (fs : Object) : Object :=
  match fs with
  | [] => [(key, v)]
  | (k, w) :: r =>
      if String.eqb k key then (k, v) :: r else (k, w) :: set_field key v r
  end.

(** The application modes, [AppStore.js] lines 14-17. *)
Inductive Mode : Type := explorer | labelstream | labeling.

(** What the transport hands back to [apiCall], as far as the funnel reads
    it: [error], [status], [response], and [reload] (read by [invokeAction]). *)
Record ApiResult : Type := mkApiResult {
  error : option string;
  status : option Z;
  response : option Object;
  reload : bool
}.

(** Calls that leave the stores: the console, the host (SDK), the history,
    the modal dialog. *)
Inductive Effect : Type :=
| ConsoleLog (message : string)
| ConsoleWarn (message : string) (description : option Value)
| SDKInvoke (event : string)
| SDKInvokeError (result : ApiResult)
| SDKSetMode (m : Mode)
| SDKDestroyLSF
| PostProcessData
| HistoryNavigate (task annotation : option Z)
| HistoryNavigateLabeling
| HistoryForceNavigate (tab : string)
| ModalConfirm (title : string).

Definition Guid : Type := string.

(** * The list cache *)
Module DataStore.

(** A record as the server sends it and as the list holds it: the mandatory
    integer [id] and the other fields in key order. *)
Record Item : Type := mkItem { id : Z; fields : Object }.

(** What [self.highlighted] and the argument of [listIncludes] can be at run
    time: the getter yields an item of the list or [undefined]; the setter is
    also given [null], an id, or an item. *)
Inductive JSRef : Type :=
| Undefined
| Null
| Num (n : Z)
| Obj (it : Item).

Definition isDefinedRef (v : JSRef) : bool :=
  match v with Undefined | Null => false | _ => true end.

(** [item.id === id] for a numeric [item.id]: strict equality holds only
    against the same number. *)
Definition strict_eq_num (n : Z) (v : JSRef) : bool :=
  match v with Num m => n =? m | _ => false end.

(** [listIncludes(list, id)], lines 6-13. *)
Definition listIncludes (l : array Item) (v : JSRef) : bool :=
  let index :=
    match v with
    | Undefined => -1
    | _ => findIndex (fun item => strict_eq_num (id item) v) l
    end in
  index >=? 0.

(** The state of one store: the properties of [MixinBase] and of the model
    composed with it, and the volatile [requestId]. *)
Record ListStore : Type := mkListStore {
  page : Z;
  pageSize : Z;
  total : Z;
  loading : bool;
  loadingItem : bool;
  loadingItems : array Z;
  updated : Guid;
  list : array Item;
  selectedId : option Z;
  highlightedId : option Z;
  requestId : option Guid
}.

Definition set_page (v : Z) (self : ListStore) : ListStore :=
  mkListStore v (pageSize self) (total self) (loading self) (loadingItem self)
    (loadingItems self) (updated self) (list self) (selectedId self)
    (highlightedId self) (requestId self).

Definition set_pageSize (v : Z) (self : ListStore) : ListStore :=
  mkListStore (page self) v (total self) (loading self) (loadingItem self)
    (loadingItems self) (updated self) (list self) (selectedId self)
    (highlightedId self) (requestId self).

Definition set_total (v : Z) (self : ListStore) : ListStore :=
  mkListStore (page self) (pageSize self) v (loading self) (loadingItem self)
    (loadingItems self) (updated self) (list self) (selectedId self)
    (highlightedId self) (requestId self).

Definition set_loading (v : bool) (self : ListStore) : ListStore :=
  mkListStore (page self) (pageSize self) (total self) v (loadingItem self)
    (loadingItems self) (updated self) (list self) (selectedId self)
    (highlightedId self) (requestId self).

Definition set_list (v : array Item) (self : ListStore) : ListStore :=
  mkListStore (page self) (pageSize self) (total self) (loading self)
    (loadingItem self) (loadingItems self) (updated self) v (selectedId self)
    (highlightedId self) (requestId self).

Definition set_selectedId (v : option Z) (self : ListStore) : ListStore :=
  mkListStore (page self) (pageSize self) (total self) (loading self)
    (loadingItem self) (loadingItems self) (updated self) (list self) v
    (highlightedId self) (requestId self).

Definition set_highlightedId (v : option Z) (self : ListStore) : ListStore :=
  mkListStore (page self) (pageSize self) (total self) (loading self)
    (loadingItem self) (loadingItems self) (updated self) (list self)
    (selectedId self) v (requestId self).

Definition set_requestId (v : option Guid) (self : ListStore) : ListStore :=
  mkListStore (page self) (pageSize self) (total self) (loading self)
    (loadingItem self) (loadingItems self) (updated self) (list self)
    (selectedId self) (highlightedId self) v.

(** [get selected()] and [get highlighted()], lines 140-146: the first item of
    the list with the referenced id, or [undefined]. *)
Definition selected (self : ListStore) : option Item :=
  match selectedId self with
  | Some sid => find (fun it => id it =? sid) (list self)
  | None => None
  end.

Definition highlighted (self : ListStore) : option Item :=
  match highlightedId self with
  | Some hid => find (fun it => id it =? hid) (list self)
  | None => None
  end.

Definition ref_of (o : option Item) : JSRef :=
  match o with Some it => Obj it | None => Undefined end.

(** The setters, lines 148-154: [item?.id ?? item]; [undefined] written to a
    [maybeNull] property with default [null] is stored as [null]. *)
Definition id_or_self (item : JSRef) : option Z :=
  match item with
  | Obj it => Some (id it)
  | Num n => Some n
  | Undefined | Null => None
  end.

Definition set_selected (item : JSRef) (self : ListStore) : ListStore :=
  set_selectedId (id_or_self item) self.

Definition set_highlighted (item : JSRef) (self : ListStore) : ListStore :=
  set_highlightedId (id_or_self item) self.

(** [setSelected(val)], lines 55-70. A number is looked up in the list;
    anything else is taken as the item itself. The host is told when the
    selection changes. *)
Definition setSelected (val : JSRef) (self : ListStore)
  : ListStore * array Effect :=
  let selected_ : option Item :=
    match val with
    | Num n => find (fun t => id t =? n) (list self)
    | Obj it => Some it
    | Undefined | Null => None
    end in
  match selected_ with
  | Some it =>
      if negb (bool_decide (Some (id it) = (id <$> selected self))) then
        (set_highlighted (Obj it) (set_selected (Obj it) self),
         [SDKInvoke "taskSelected"])
      else (self, [])
  | None => (self, [])
  end.

(** [unset({ withHightlight = false } = {})], lines 76-79. *)
Definition unset (withHightlight : bool) (self : ListStore) : ListStore :=
  let self := set_selected Undefined self in
  if withHightlight then set_highlighted Undefined self else self.

(** [clear()], lines 120-125. *)
Definition clear (self : ListStore) : ListStore :=
  let self := set_highlighted Undefined self in
  let self := set_list [] self in
  let self := set_page 0 self in
  set_total 0 self.

(** Modelled from the spec: [update(patch)] of the list item type (not under
    src/), "patches the existing Item in place": every key of the patch is
    written to the item. *)
Definition update (patch : Item) (item : Item) : Item :=
  {| id := id patch;
     fields := fold_left (fun fs kv => set_field kv.1 kv.2 fs)
                 (fields patch) (fields item) |}.

(** Modelled from the spec: [listItemType.create(patch)] (the item type is not
    under src/), "constructs a new Item from the patch". *)
Definition create (patch : Item) : Item := patch.

(** The list with its first element satisfying [p] replaced by its image. *)
Fixpoint patch_first (p : Item -> bool) (f : Item -> Item) (l : array Item)
  : array Item :=
  match l with
  | [] => []
  | x :: r => if p x then f x :: r else x :: patch_first p f r
  end.

(** [updateItem(itemID, patch)], lines 160-171. *)
Definition updateItem (itemID : Z) (patch : Item) (self : ListStore)
  : ListStore * Item :=
  match find (fun t => id t =? itemID) (list self) with
  | Some item =>
      (set_list (patch_first (fun t => id t =? itemID) (update patch)
                   (list self)) self,
       update patch item)
  | None =>
      let item := create patch in
      (set_list (list self ++ [item]) self, item)
  end.

(** The selected view, as [viewsStore.selected] supplies it. *)
Record View : Type := mkView {
  view_id : Z;
  virtual : bool;
  query : option string
}.

(** The argument of [fetch]. *)
Record FetchOptions : Type := mkFetchOptions {
  opt_id : option Z;
  opt_query : option string;
  opt_pageNumber : option Z;
  opt_reload : bool;
  opt_interaction : option string;
  opt_pageSize : option Z
}.

(** The request parameters. *)
Record Params : Type := mkParams {
  param_page : Z;
  param_page_size : Z;
  param_query : option string;
  param_view : option Z;
  param_interaction : option string
}.

(** The variables of [fetch] that are read after the [yield]. *)
Record Suspended : Type := mkSuspended {
  k_requestId : Guid;
  k_reload : bool;
  k_pageNumber : option Z
}.

(** What [fetch] reads of the awaited response: [total] and the record list
    under the store's [apiMethod] key ([undefined] in an error-shaped result). *)
Record Data : Type := mkData {
  data_total : Z;
  data_list : option (array Item)
}.

(** [fetch], lines 173-215: up to the [yield]. [None] is the early return. *)
Definition fetch_start (currentView : option View) (guid : Guid)
    (o : FetchOptions) (self : ListStore)
  : ListStore * option (Params * Suspended) :=
  let self := set_requestId (Some guid) self in
  let '(currentViewId, currentViewQuery) :=
    if truthy_num (opt_id o) then (opt_id o, opt_query o)
    else (view_id <$> currentView,
          match currentView with
          | Some v => if virtual v then query v else None
          | None => None
          end) in
  match currentViewId with
  | None => (self, None)
  | Some viewId =>
      let self := set_loading true self in
      let self :=
        if opt_reload o || isDefined (opt_pageNumber o) then
          if page self =? 0 then set_page 1 self
          else match opt_pageNumber o with
               | Some n => set_page n self
               | None => self
               end
        else set_page (page self + 1) self in
      let self :=
        match opt_pageSize o with
        | Some n => if n =? 0 then self else set_pageSize n self
        | None => self
        end in
      let params :=
        {| param_page := page self;
           param_page_size := pageSize self;
           param_query :=
             if truthy_str currentViewQuery then currentViewQuery else None;
           param_view :=
             if truthy_str currentViewQuery then None else Some viewId;
           param_interaction :=
             if truthy_str (opt_interaction o) then opt_interaction o
             else None |} in
      (self, Some (params,
                   {| k_requestId := guid;
                      k_reload := opt_reload o;
                      k_pageNumber := opt_pageNumber o |}))
  end.

Definition cancelled_message (requestId_ : Guid) : string :=
  ("Request " ++ requestId_ ++ " was cancelled by another request")%string.

Section WithStringify.

(** [JSON.stringify] is a built-in of the language, not code of the
    repository. *)
Variable JSON_stringify : Item -> string.

(** The element built by [list.map] in [setList], lines 82-85. *)
Definition wrap (t : Item) : Item :=
  {| id := id t;
     fields := set_field "source" (VStr (JSON_stringify t)) (fields t) |}.

(** The body of the [forEach] in [setList], lines 89-95. *)
Definition remove_existing (self : ListStore) (n : Item) : ListStore :=
  let index := findIndex (fun i => id i =? id n) (list self) in
  if index >=? 0 then set_list (splice1 index (list self)) self else self.

(** [setList({ list, total, reload })], lines 81-102. *)
Definition setList (list_ : array Item) (total_ : Z) (reload : bool)
    (self : ListStore) : ListStore :=
  let newEntity := map wrap list_ in
  let self := set_total total_ self in
  let self := fold_left remove_existing newEntity self in
  if reload then set_list newEntity self
  else set_list (list self ++ newEntity) self.

(** [fetch], lines 217-243: from the [yield] on. *)
Definition fetch_resume (k : Suspended) (data : Data) (self : ListStore)
  : ListStore * array Effect :=
  if negb (bool_decide (Some (k_requestId k) = requestId self)) then
    (self, [ConsoleLog (cancelled_message (k_requestId k))])
  else
    let highlightedID := ref_of (highlighted self) in
    let self :=
      match data_list data with
      | Some list_ =>
          setList list_ (data_total data)
            (k_reload k || isDefined (k_pageNumber k)) self
      | None => self
      end in
    let self :=
      if isDefinedRef highlightedID
         && negb (listIncludes (list self) highlightedID)
      then set_highlighted Null self else self in
    let self := set_loading false self in
    (self, [PostProcessData; SDKInvoke "dataFetched"]).

(** ** Overlapping fetches on one store

    Several fetches may be in flight at once. The system is the store, the
    suspended fetches and the tokens minted so far; an event either starts a
    fetch or delivers the response of a suspended one. *)
Record Sys : Type := mkSys {
  store : ListStore;
  inflight : array Suspended;
  minted : array Guid
}.

Inductive Event : Type :=
| Fetch (currentView : option View) (guid : Guid) (o : FetchOptions)
| Response (token : Guid) (data : Data).

(** Modelled from the spec: [guidGenerator] of [utils/random] (not under
    src/) mints an opaque token that replaces the previous one; a token is
    never minted twice. *)
Definition fresh (guid : Guid) (s : Sys) : bool :=
  negb (existsb (String.eqb guid) (minted s)).

Definition exec (s : Sys) (e : Event) : option Sys :=
  match e with
  | Fetch currentView guid o =>
      if fresh guid s then
        let '(st, req) := fetch_start currentView guid o (store s) in
        Some {| store := st;
                inflight := match req with
                            | Some (_, k) => k :: inflight s
                            | None => inflight s
                            end;
                minted := guid :: minted s |}
      else None
  | Response token data =>
      match find (fun k => String.eqb (k_requestId k) token) (inflight s) with
      | Some k =>
          Some {| store := (fetch_resume k data (store s)).1;
                  inflight :=
                    filter (fun k' => k_requestId k' ≠ token) (inflight s);
                  minted := minted s |}
      | None => None
      end
  end.

Fixpoint run (s : Sys) (evs : array Event) : option Sys :=
  match evs with
  | [] => Some s
  | e :: evs' =>
      match exec s e with
      | Some s' => run s' evs'
      | None => None
      end
  end.

Definition init (st : ListStore) : Sys :=
  {| store := st; inflight := []; minted := [] |}.

End WithStringify.

(** ** The merge in the words of the specification

    The ids of a list, the invariant "no two items with equal id", and the
    merge as section 4.1 describes it: every item whose id matches an
    incoming id is removed, then the incoming items replace the list or are
    appended to it. *)
Definition ids (l : array Item) : array Z := map id l.

Definition unique_ids (self : ListStore) : Prop := NoDup (ids (list self)).

Definition merge_as_specified (stringify : Item -> string)
    (list_ : array Item) (total_ : Z) (reload : bool) (self : ListStore)
  : ListStore :=
  let incoming := map (wrap stringify) list_ in
  let kept := filter (fun i => id i ∉ ids incoming) (list self) in
  set_list (if reload then incoming else kept ++ incoming)
    (set_total total_ self).

(** What every run keeps true: the tokens of the suspended fetches were
    minted, no token was minted twice, and [requestId] is the token minted
    last. *)
Definition consistent (s : Sys) : Prop :=
  (forall k, k ∈ inflight s -> k_requestId k ∈ minted s)
  /\ NoDup (minted s)
  /\ (minted s <> [] -> requestId (store s) = head (minted s)).

(** ** The remaining views and actions of the store *)

Definition set_loadingItem (v : bool) (self : ListStore) : ListStore :=
  mkListStore (page self) (pageSize self) (total self) (loading self) v
    (loadingItems self) (updated self) (list self) (selectedId self)
    (highlightedId self) (requestId self).

Definition set_loadingItems (v : array Z) (self : ListStore) : ListStore :=
  mkListStore (page self) (pageSize self) (total self) (loading self)
    (loadingItem self) v (updated self) (list self) (selectedId self)
    (highlightedId self) (requestId self).

Definition set_updated (v : Guid) (self : ListStore) : ListStore :=
  mkListStore (page self) (pageSize self) (total self) (loading self)
    (loadingItem self) (loadingItems self) v (list self) (selectedId self)
    (highlightedId self) (requestId self).

(** [get isLoading()], lines 42-44. *)
Definition isLoading (self : ListStore) : bool :=
  loadingItem self || (Z.of_nat (length (loadingItems self)) >? 0).

(** [get length()], lines 46-48. *)
Definition length_ (self : ListStore) : Z := Z.of_nat (length (list self)).

(** [itemIsLoading(id)], lines 50-52. *)
Definition itemIsLoading (id_ : Z) (self : ListStore) : bool :=
  existsb (Z.eqb id_) (loadingItems self).

(** [hasRecord(id)], lines 72-74, for a numeric [id]. *)
Definition hasRecord (id_ : Z) (self : ListStore) : bool :=
  existsb (fun t => id t =? id_) (list self).

(** [setLoading(id)], lines 104-110. *)
Definition setLoading (id_ : option Z) (self : ListStore) : ListStore :=
  match id_ with
  | Some n => set_loadingItems (loadingItems self ++ [n]) self
  | None => set_loadingItem true self
  end.

(** [finishLoading(id)], lines 112-118. *)
Definition finishLoading (id_ : option Z) (self : ListStore) : ListStore :=
  match id_ with
  | Some n =>
      set_loadingItems
        (List.filter (fun item => negb (item =? n)) (loadingItems self)) self
  | None => set_loadingItem false self
  end.

(** [reload({ id, query, interaction })], lines 246-248: [fetch] with
    [reload: true], up to the [yield] of [fetch]. *)
Definition reload_start (currentView : option View) (guid : Guid)
    (id_ : option Z) (query_ : option string) (interaction : option string)
    (self : ListStore) : ListStore * option (Params * Suspended) :=
  fetch_start currentView guid
    {| opt_id := id_; opt_query := query_; opt_pageNumber := None;
       opt_reload := true; opt_interaction := interaction;
       opt_pageSize := None |} self.

(** [self.list.indexOf(self.highlighted)]. The getter yields the first item
    of the list with the highlighted id, so its index is the index of the
    first item with that id; [indexOf(undefined)] is [-1]. *)
Definition highlighted_index (self : ListStore) : Z :=
  match highlightedId self with
  | Some hid => findIndex (fun it => id it =? hid) (list self)
  | None => -1
  end.

(** [arr[index]]: [undefined] outside the array. *)
Definition at_index {A : Type} (index : Z) (l : array A) : option A :=
  if index <? 0 then None else l !! Z.to_nat index.

(** [focusPrev()], lines 250-255. *)
Definition focusPrev (guid : Guid) (self : ListStore) : ListStore :=
  let index := Z.max 0 (highlighted_index self - 1) in
  let self := set_highlighted (ref_of (at_index index (list self))) self in
  set_updated guid self.

(** [focusNext()], lines 257-265. *)
Definition focusNext (guid : Guid) (self : ListStore) : ListStore :=
  let index :=
    Z.min (Z.of_nat (length (list self)) - 1) (highlighted_index self + 1) in
  let self := set_highlighted (ref_of (at_index index (list self))) self in
  set_updated guid self.

End DataStore.

(** * The orchestrator *)
Module AppStore.

(** The selection snapshot of a view, [{ all, included }]. *)
Record Selection : Type := mkSelection {
  all : bool;
  included : array Z
}.

#[global] Instance Selection_eq_dec : EqDecision Selection.
Proof. solve_decision. Defined.

(** The selected view (tab) as the orchestrator reads it. The views store is
    not under src/; these are the properties the actions below touch. *)
Record Tab : Type := mkTab {
  tab_id : option Z;
  tab_virtual : bool;
  tabKey : option string;
  tab_target : option string;
  ordering : option (array string);
  tab_selected : option Selection;
  conjunction : option string;
  serializedFilters : option (array string);
  locked : bool
}.

Definition set_locked (v : bool) (t : Tab) : Tab :=
  mkTab (tab_id t) (tab_virtual t) (tabKey t) (tab_target t) (ordering t)
    (tab_selected t) (conjunction t) (serializedFilters t) v.

(** An entry of [serverError]. *)
Record ServerError : Type := mkServerError {
  se_error : string;
  se_response : Object
}.

(** The state of the orchestrator that the actions below read or write. *)
Record AppStore : Type := mkAppStore {
  mode : Mode;
  viewsStore_selected : option Tab;
  viewsStore_views : array Tab;
  project : Object;
  loadingData : bool;
  taskStore : DataStore.ListStore;
  annotationStore : DataStore.ListStore;
  availableActions : array string;
  serverError : gmap string ServerError;
  crashed : bool
}.

Definition set_mode (v : Mode) (self : AppStore) : AppStore :=
  mkAppStore v (viewsStore_selected self) (viewsStore_views self)
    (project self) (loadingData self) (taskStore self) (annotationStore self)
    (availableActions self) (serverError self) (crashed self).

Definition set_viewsStore_selected (v : option Tab) (self : AppStore)
  : AppStore :=
  mkAppStore (mode self) v (viewsStore_views self)
    (project self) (loadingData self) (taskStore self) (annotationStore self)
    (availableActions self) (serverError self) (crashed self).

Definition set_loadingData (v : bool) (self : AppStore) : AppStore :=
  mkAppStore (mode self) (viewsStore_selected self) (viewsStore_views self)
    (project self) v (taskStore self) (annotationStore self)
    (availableActions self) (serverError self) (crashed self).

Definition set_taskStore (v : DataStore.ListStore) (self : AppStore)
  : AppStore :=
  mkAppStore (mode self) (viewsStore_selected self) (viewsStore_views self)
    (project self) (loadingData self) v (annotationStore self)
    (availableActions self) (serverError self) (crashed self).

Definition set_annotationStore (v : DataStore.ListStore) (self : AppStore)
  : AppStore :=
  mkAppStore (mode self) (viewsStore_selected self) (viewsStore_views self)
    (project self) (loadingData self) (taskStore self) v
    (availableActions self) (serverError self) (crashed self).

Definition set_serverError (v : gmap string ServerError) (self : AppStore)
  : AppStore :=
  mkAppStore (mode self) (viewsStore_selected self) (viewsStore_views self)
    (project self) (loadingData self) (taskStore self) (annotationStore self)
    (availableActions self) v (crashed self).

(** What the actions read from outside the store: the URL parameters, the
    persisted label-stream preference, and the host's local action
    callbacks. *)
Record Host : Type := mkHost {
  url_tab : option string;
  labelstream_mode : option string;
  getAction : string -> bool
}.

(** ** Actions

    An action runs on the store, may call out, and either returns or throws. *)
Inductive Completion (A : Type) : Type :=
| Return (a : A)
| Throw (e : string).
Arguments Return {A} a.
Arguments Throw {A} e.

Definition Act (A : Type) : Type :=
  AppStore -> Completion A * AppStore * array Effect.

#[global] Instance act_ret : MRet Act :=
  fun A a self => (Return a, self, []).

#[global] Instance act_bind : MBind Act :=
  fun A B f m self =>
    match m self with
    | (Return a, self', out) =>
        match f a self' with
        | (c, self'', out') => (c, self'', out ++ out')
        end
    | (Throw e, self', out) => (Throw e, self', out)
    end.

Definition throw {A : Type} (e : string) : Act A :=
  fun self => (Throw e, self, []).

Definition gets {A : Type} (f : AppStore -> A) : Act A :=
  fun self => (Return (f self), self, []).

Definition modify (f : AppStore -> AppStore) : Act unit :=
  fun self => (Return tt, f self, []).

Definition emit (e : Effect) : Act unit :=
  fun self => (Return tt, self, [e]).

Definition emits (es : array Effect) : Act unit :=
  fun self => (Return tt, self, es).

Definition when (b : bool) (m : Act unit) : Act unit :=
  if b then m else mret tt.

(** The three parts of the outcome of an action. *)
Definition completion {A : Type} (r : Completion A * AppStore * array Effect)
  : Completion A := r.1.1.

Definition after {A : Type} (r : Completion A * AppStore * array Effect)
  : AppStore := r.1.2.

Definition calls {A : Type} (r : Completion A * AppStore * array Effect)
  : array Effect := r.2.

(** ** Views, lines 55-125 *)

Definition currentView (self : AppStore) : option Tab :=
  viewsStore_selected self.

Definition target (self : AppStore) : string :=
  match viewsStore_selected self with
  | Some v => default "tasks" (tab_target v)
  | None => "tasks"
  end.

Definition dataStore (self : AppStore) : option DataStore.ListStore :=
  if String.eqb (target self) "tasks" then Some (taskStore self)
  else if String.eqb (target self) "annotations" then
    Some (annotationStore self)
  else None.

Definition labelingIsConfigured (self : AppStore) : bool :=
  match get_field "config_has_control_tags" (project self) with
  | Some (VBool true) => true
  | _ => false
  end.

(** ** Actions, lines 130-582 *)

Definition setMode (m : Mode) : Act unit :=
  modify (set_mode m).

(** Modelled from the spec: [SDK.setMode] of the host (sdk/dm-sdk, not under
    src/): the host "switches mode" of the application, which it does through
    the store's own [setMode]. *)
Definition SDK_setMode (m : Mode) : Act unit :=
  emit (SDKSetMode m);; setMode m.

(** An action of a data store, run on the task store or on the annotation
    store of the orchestrator. *)
Definition on_taskStore
    (f : DataStore.ListStore -> DataStore.ListStore * array Effect)
  : Act unit :=
  fun self =>
    let '(st, out) := f (taskStore self) in
    (Return tt, set_taskStore st self, out).

Definition on_annotationStore
    (f : DataStore.ListStore -> DataStore.ListStore * array Effect)
  : Act unit :=
  fun self =>
    let '(st, out) := f (annotationStore self) in
    (Return tt, set_annotationStore st self, out).

(** [annotationID] as [setTask] reads it. Line 201 tells [undefined] from
    every other value, so [null] is kept apart from it. *)
Inductive AnnotationID : Type :=
| NoAnnotation
| NullAnnotation
| Annotation (a : Z).

(** [annotationID ?? null] *)
Definition or_null (v : AnnotationID) : option Z :=
  match v with Annotation a => Some a | _ => None end.

(** [!!annotationID] *)
Definition truthy_annotation (v : AnnotationID) : bool :=
  truthy_num (or_null v).

(** The value as an argument of a data store's [setSelected]. *)
Definition ref_of_annotation (v : AnnotationID) : DataStore.JSRef :=
  match v with
  | NoAnnotation => DataStore.Undefined
  | NullAnnotation => DataStore.Null
  | Annotation a => DataStore.Num a
  end.

(** The argument of [setTask]. [pushState] is [undefined], [true] or
    [false]. *)
Record TaskParams : Type := mkTaskParams {
  taskID : option Z;
  annotationID : AnnotationID;
  pushState : option bool
}.

(** Where a flow stops: at its end, or at a [yield] on a call of the task
    store that is not under src/. *)
Inductive Suspension : Type :=
| Done
| AwaitLoadNextTask (p : TaskParams) (select : bool)
| AwaitLoadTask (task : Z) (select : bool).

(** [pushState !== false] *)
Definition not_false (v : option bool) : bool :=
  negb (bool_decide (v = Some false)).

(** [setTask], lines 201-208: after the label-stream branch, up to the
    [yield] on [loadTask]. *)
Definition setTask_select (p : TaskParams) (task : Z) : Act Suspension :=
  match annotationID p with
  | NoAnnotation =>
      on_taskStore (DataStore.setSelected (DataStore.Num task));;
      mret (AwaitLoadTask task
              (truthy_num (taskID p) && truthy_annotation (annotationID p)))
  | annotation =>
      on_annotationStore
        (DataStore.setSelected (ref_of_annotation annotation));;
      mret Done
  end.

(** [setTask], lines 186-199: up to the first [yield]. *)
Definition setTask (p : TaskParams) : Act Suspension :=
  when (not_false (pushState p))
    (emit (HistoryNavigate (taskID p) (or_null (annotationID p))));;
  match taskID p with
  | None => mret Done
  | Some task =>
      modify (set_loadingData true);;
      m ← gets mode;
      match m with
      | labelstream =>
          mret (AwaitLoadNextTask p
                  (truthy_num (taskID p)
                   && truthy_annotation (annotationID p)))
      | _ => setTask_select p task
      end
  end.

(** [unsetTask(options)], lines 219-230. [options] is [undefined] or carries
    [pushState]. *)
Definition unsetTask (options : option (option bool)) : Act unit :=
  on_annotationStore (fun st => (DataStore.unset false st, []));;
  on_taskStore (fun st => (DataStore.unset false st, []));;
  when (not_false (options ≫= Datatypes.id))
    (emit (HistoryNavigate None None)).

(** [unsetSelection()], lines 232-235. *)
Definition unsetSelection : Act unit :=
  on_annotationStore (fun st => (DataStore.unset true st, []));;
  on_taskStore (fun st => (DataStore.unset true st, [])).

(** [confirmLabelingConfigured()], lines 292-307. *)
Definition confirmLabelingConfigured : Act bool :=
  configured ← gets labelingIsConfigured;
  if negb configured then
    emit (ModalConfirm "You're almost there!");; mret false
  else mret true.

(** [startLabelStream(options = {})], lines 251-261. *)
Definition startLabelStream (options : option bool) : Act unit :=
  ok ← confirmLabelingConfigured;
  if negb ok then mret tt
  else
    SDK_setMode labelstream;;
    when (not_false options) (emit HistoryNavigateLabeling).

(** [closeLabeling(options)], lines 309-331. *)
Definition closeLabeling (host : Host) (options : option (option bool))
  : Act unit :=
  unsetTask options;;
  view ← gets currentView;
  views ← gets viewsStore_views;
  let tabFromURL := url_tab host in
  let viewId :=
    match view with
    | Some v => tabKey v
    | None =>
        match tabFromURL with
        | Some t => Some t
        | None => head views ≫= tabKey
        end
    end in
  match viewId with
  | Some t => emit (HistoryForceNavigate t)
  | None => mret tt
  end;;
  SDK_setMode explorer;;
  emit SDKDestroyLSF.

(** The item handed to [startLabeling]: a list item, or the plain object
    [handlePopState] builds from the URL. [isSelected] is a view of the list
    item type (not under src/); the action reads it as a property of its
    argument, and it is [undefined] on a plain object. *)
Record LabelItem : Type := mkLabelItem {
  item_id : Z;
  task_id : option Z;
  isSelected : option bool
}.

(** [labelingParams], lines 271-284. *)
Definition labelingParams (item : LabelItem) (options : option bool)
  : TaskParams :=
  match task_id item with
  | Some t =>
      {| taskID := Some t; annotationID := Annotation (item_id item);
         pushState := options |}
  | None =>
      {| taskID := Some (item_id item); annotationID := NoAnnotation;
         pushState := options |}
  end.

(** [startLabeling(item, options = {})], lines 263-290. The flow [setTask] is
    started and not awaited; it runs up to its first [yield]. *)
Definition startLabeling (host : Host) (item : option LabelItem)
    (options : option bool) : Act unit :=
  ok ← confirmLabelingConfigured;
  if negb ok then mret tt
  else
    ds ← gets dataStore;
    match ds with
    | None => throw "TypeError: Cannot read properties of null"
    | Some ds =>
        if DataStore.loadingItem ds then mret tt
        else
          SDK_setMode labeling;;
          match item with
          | Some it =>
              if negb (bool_decide (isSelected it = Some true)) then
                setTask (labelingParams it options);; mret tt
              else closeLabeling host None
          | None => closeLabeling host None
          end
    end.

(** [apiCall], lines 460-483: from the [yield] on the transport on. The
    description logged is [result?.response?.detail ?? result.error]. *)
Definition apiCall_resume (methodName : string) (result : ApiResult)
  : Act ApiResult :=
  (if truthy_str (error result)
      && negb (bool_decide (status result = Some 404))
   then
     match response result with
     | Some r =>
         modify (fun self =>
           set_serverError
             (<[methodName := {| se_error := "Something went wrong";
                                 se_response := r |}]> (serverError self))
             self)
     | None => mret tt
     end;;
     emit (ConsoleWarn "Error occurred when loading data"
             match response result ≫= get_field "detail" with
             | Some VNull | None => VStr <$> error result
             | Some d => Some d
             end);;
     emit (SDKInvokeError result)
   else
     modify (fun self =>
       set_serverError (delete methodName (serverError self)) self));;
  mret result.

(** What happens between the entry of [apiCall] and line 460: a transform
    hook of the host throws (lines 454-456); the transport has no method of
    that name, so the call of line 458 is a call of [undefined]; the awaited
    promise rejects; or it resolves, with an object or with [null] or
    [undefined]. *)
Inductive Transport : Type :=
| HookThrows (e : string)
| NoMethod
| Rejects (e : string)
| Resolves (result : option ApiResult).

(** [apiCall], lines 453-484. The flow has no [try]: an exception of a
    hook, of the call or of the awaited promise is thrown by [apiCall]
    itself, before anything is written; [result.error] on [null] or
    [undefined] is a [TypeError]. *)
Definition apiCall (methodName : string) (t : Transport) : Act ApiResult :=
  match t with
  | HookThrows e => throw e
  | NoMethod => throw "TypeError: self.API[methodName] is not a function"
  | Rejects e => throw e
  | Resolves None => throw "TypeError: Cannot read properties of undefined"
  | Resolves (Some result) => apiCall_resume methodName result
  end.

(** A key of the parameter bundle: deleted, or present with its value. *)
Inductive Key (A : Type) : Type :=
| Absent
| Present (v : A).
Arguments Absent {A}.
Arguments Present {A} v.

Record Filters : Type := mkFilters {
  filters_conjunction : string;
  filters_items : array string
}.

(** [actionParams], the bundle built by [invokeAction]. *)
Record ActionParams : Type := mkActionParams {
  params_ordering : Key (option (array string));
  params_selectedItems : Key Selection;
  params_filters : Key Filters
}.

(** [invokeAction], lines 497-521: the bundle from the view ([{}] when no view
    is selected), the persisted preference and the action id. *)
Definition actionParams (view : option Tab) (labelStreamMode : option string)
    (actionId : string) : ActionParams :=
  let selected := view ≫= tab_selected in
  let ordering_ := view ≫= ordering in
  let selectedItems :=
    default {| all := false; included := [] |} selected in
  let filters :=
    {| filters_conjunction := default "and" (view ≫= conjunction);
       filters_items := default [] (view ≫= serializedFilters) |} in
  let p :=
    {| params_ordering := Present ordering_;
       params_selectedItems := Present selectedItems;
       params_filters := Present filters |} in
  if String.eqb actionId "next_task" then
    if bool_decide (labelStreamMode = Some "all") then
      let p := mkActionParams (params_ordering p) (params_selectedItems p)
                 Absent in
      if negb (all selectedItems)
         && (Z.of_nat (length (included selectedItems)) =? 0)
      then mkActionParams Absent Absent (params_filters p)
      else p
    else if bool_decide (labelStreamMode = Some "filtered") then
      mkActionParams (params_ordering p) Absent (params_filters p)
    else p
  else p.

(** How [invokeAction] leaves its first part: it returns what the local
    callback returns, or it is suspended on the remote call. The body sent is
    [Object.assign(actionParams, options.body)]: the bundle with the keys of
    the caller's body written over it. *)
Inductive Invocation : Type :=
| CallCallback (p : ActionParams) (view : option Tab)
| AwaitInvokeAction (id : string) (tabID : option Z) (p : ActionParams)
    (assigned : option Object).

(** Modelled from the spec: [view.lock()] of the views store (not under
    src/): "the active view is locked". *)
Definition lock (view : Tab) : Act unit :=
  modify (set_viewsStore_selected (Some (set_locked true view))).

(** [invokeAction], lines 486-545: up to the [yield] on [apiCall]. Without a
    selected view, [view] is [{}], which has no [lock]. *)
Definition invokeAction_start (host : Host) (actionId : string)
    (body : option Object) : Act Invocation :=
  view ← gets currentView;
  available ← gets availableActions;
  let needsLock := findIndex (String.eqb actionId) available >=? 0 in
  let actionCallback := getAction host actionId in
  match view with
  | Some v => when (needsLock && negb actionCallback) (lock v)
  | None =>
      if needsLock && negb actionCallback
      then throw "TypeError: view.lock is not a function"
      else mret tt
  end;;
  let p := actionParams view (labelstream_mode host) actionId in
  if actionCallback then mret (CallCallback p view)
  else
    let tabID :=
      match view with
      | Some v => if tab_virtual v then None else tab_id v
      | None => None
      end in
    mret (AwaitInvokeAction actionId tabID p body).

(** The bundle [invokeAction] built, as handed to the local callback or as
    the base of the remote body. *)
Definition bundle_of (i : Invocation) : ActionParams :=
  match i with
  | CallCallback p _ => p
  | AwaitInvokeAction _ _ p _ => p
  end.

(** The selection snapshot the bundle starts from. *)
Definition default_selection : Selection := {| all := false; included := [] |}.

Definition snapshot_of (view : option Tab) : Selection :=
  default default_selection (view ≫= tab_selected).

(** ** The remaining views and actions of the orchestrator *)

(** [get isLabelStreamMode()], lines 79-81. *)
Definition isLabelStreamMode (self : AppStore) : bool :=
  match mode self with labelstream => true | _ => false end.

(** [get isExplorerMode()], lines 83-85. *)
Definition isExplorerMode (self : AppStore) : bool :=
  match mode self with explorer | labeling => true | _ => false end.

(** [get isLabeling()], lines 75-77. *)
Definition isLabeling (self : AppStore) : bool :=
  match dataStore self ≫= DataStore.selected with
  | Some _ => true
  | None => false
  end
  || isLabelStreamMode self
  || match mode self with labeling => true | _ => false end.

(** [addActions(...actions)], lines 152-154, on the ids of the actions. *)
Definition set_availableActions (v : array string) (self : AppStore)
  : AppStore :=
  mkAppStore (mode self) (viewsStore_selected self) (viewsStore_views self)
    (project self) (loadingData self) (taskStore self) (annotationStore self)
    v (serverError self) (crashed self).

Definition addActions (actions : array string) : Act unit :=
  modify (fun self =>
    set_availableActions (availableActions self ++ actions) self).

(** The [interfaces] map, lines 162-180. The three actions read and write
    this one property of the store and nothing else; they are functions of
    the map. *)
Definition interfaceEnabled (name : string) (interfaces : gmap string bool)
  : bool :=
  bool_decide (interfaces !! name = Some true).

Definition unknown_interface (name : string) : Effect :=
  ConsoleWarn ("Unknown interface " ++ name)%string None.

Definition enableInterface (name : string) (interfaces : gmap string bool)
  : gmap string bool * array Effect :=
  if negb (bool_decide (is_Some (interfaces !! name))) then
    (interfaces, [unknown_interface name])
  else (<[name := true]> interfaces, []).

Definition disableInterface (name : string) (interfaces : gmap string bool)
  : gmap string bool * array Effect :=
  if negb (bool_decide (is_Some (interfaces !! name))) then
    (interfaces, [unknown_interface name])
  else (<[name := false]> interfaces, []).

End AppStore.

(** * Sample data

    A serialiser to stand for [JSON.stringify] where a statement is about one
    concrete input, and the records and stores of the examples. *)
Module Sample.
Import DataStore.

Definition dquote : string := String (Ascii.ascii_of_nat 34) EmptyString.

Definition show_value (v : Value) : string :=
  match v with
  | VNull => "null"
  | VBool true => "true"
  | VBool false => "false"
  | VNum n => pretty n
  | VStr s => dquote ++ s ++ dquote
  end%string.

Definition show_fields (fs : Object) : string :=
  fold_right
    (fun kv acc => "," ++ dquote ++ kv.1 ++ dquote ++ ":" ++ show_value kv.2
                   ++ acc)%string
    EmptyString fs.

Definition stringify (t : Item) : string :=
  ("{" ++ dquote ++ "id" ++ dquote ++ ":" ++ pretty (id t)
   ++ show_fields (fields t) ++ "}")%string.

(** A store as it is created: the defaults of the model, page size 30. *)
Definition empty_store : ListStore :=
  {| page := 0; pageSize := 30; total := 0; loading := false;
     loadingItem := false; loadingItems := []; updated := "u0";
     list := []; selectedId := None; highlightedId := None;
     requestId := None |}.

Definition store_of (l : array Item) : ListStore := set_list l empty_store.

Definition a_view : View :=
  {| view_id := 7; virtual := false; query := None |}.

Definition no_options : FetchOptions :=
  {| opt_id := None; opt_query := None; opt_pageNumber := None;
     opt_reload := false; opt_interaction := None; opt_pageSize := None |}.

Definition reload_options : FetchOptions :=
  {| opt_id := None; opt_query := None; opt_pageNumber := None;
     opt_reload := true; opt_interaction := None; opt_pageSize := None |}.

Definition a_tab : AppStore.Tab :=
  {| AppStore.tab_id := Some 7; AppStore.tab_virtual := false;
     AppStore.tabKey := Some "7"; AppStore.tab_target := None;
     AppStore.ordering := Some ["tasks:id"]; AppStore.tab_selected := None;
     AppStore.conjunction := None; AppStore.serializedFilters := None;
     AppStore.locked := false |}.

(** An application in explorer mode on a configured project, task 1
    selected. *)
Definition app : AppStore.AppStore :=
  {| AppStore.mode := explorer;
     AppStore.viewsStore_selected := Some a_tab;
     AppStore.viewsStore_views := [a_tab];
     AppStore.project := [("config_has_control_tags", VBool true)];
     AppStore.loadingData := false;
     AppStore.taskStore :=
       set_selectedId (Some 1) (store_of [mkItem 1 []; mkItem 2 []]);
     AppStore.annotationStore := empty_store;
     AppStore.availableActions := ["next_task"];
     AppStore.serverError := ∅;
     AppStore.crashed := false |}.

Definition host_all : AppStore.Host :=
  {| AppStore.url_tab := None; AppStore.labelstream_mode := Some "all";
     AppStore.getAction := fun _ => true |}.

Definition selected_task : AppStore.LabelItem :=
  {| AppStore.item_id := 1; AppStore.task_id := None;
     AppStore.isSelected := Some true |}.

End Sample.

(** * Properties of the list cache *)
Section ListCache.
Import DataStore.

(** ** Records and setters *)

Lemma set_list_same (self : ListStore) : set_list (list self) self = self.
Proof. by destruct self. Qed.

Lemma set_list_twice (l l' : array Item) (self : ListStore) :
  set_list l (set_list l' self) = set_list l self.
Proof. reflexivity. Qed.

(** ** Array helpers *)

Lemma findIndex_none {A : Type} (p : A -> bool) (l : array A) :
  (forall x, In x l -> p x = false) -> findIndex p l = -1.
Proof.
  induction l as [|x r IH]; simpl; [done|]. intros Hall.
  rewrite (Hall x) by auto. rewrite IH by auto. done.
Qed.

Lemma findIndex_range {A : Type} (p : A -> bool) (l : array A) :
  findIndex p l = -1 \/ 0 <= findIndex p l < Z.of_nat (length l).
Proof.
  induction l as [|x r IH]; simpl; [by left|].
  destruct (p x); [right; lia|].
  destruct IH as [->|IH]; [by left|].
  right. destruct (Z.ltb_spec (findIndex p r) 0); lia.
Qed.

(** ** [clear] *)

(** C10. [clear()] resets [list], the highlight, [page] and [total] and
    nothing else: [selectedId] and [pageSize] (and every other property) keep
    their values, and since the list is empty afterwards the [selected] view
    resolves to [undefined] whatever the stale [selectedId] is. *)
Theorem clear_keeps_selectedId (self : ListStore) :
  clear self
  = {| page := 0; pageSize := pageSize self; total := 0;
       loading := loading self; loadingItem := loadingItem self;
       loadingItems := loadingItems self; updated := updated self;
       list := []; selectedId := selectedId self; highlightedId := None;
       requestId := requestId self |}
  /\ selectedId (clear self) = selectedId self
  /\ pageSize (clear self) = pageSize self
  /\ list (clear self) = []
  /\ selected (clear self) = None.
Proof.
  repeat split.
  unfold selected; simpl. by destruct (selectedId self).
Qed.

(** ** The page cursor of [fetch] *)

(** The page after the first part of [fetch], as lines 191-198 compute it. *)
Lemma fetch_start_resolved (currentView : option View) (guid : Guid)
    (o : FetchOptions) (self : ListStore) (params : Params) (k : Suspended) :
  (fetch_start currentView guid o self).2 = Some (params, k) ->
  page (fetch_start currentView guid o self).1
  = (if opt_reload o || isDefined (opt_pageNumber o) then
       if page self =? 0 then 1
       else match opt_pageNumber o with Some n => n | None => page self end
     else page self + 1)
  /\ param_page params = page (fetch_start currentView guid o self).1
  /\ loading (fetch_start currentView guid o self).1 = true
  /\ requestId (fetch_start currentView guid o self).1 = Some guid
  /\ k = {| k_requestId := guid; k_reload := opt_reload o;
            k_pageNumber := opt_pageNumber o |}.
Proof.
  unfold fetch_start.
  destruct (truthy_num (opt_id o)); simpl.
  - destruct (opt_id o) as [viewId|]; simpl; [|discriminate].
    intros [= <- <-].
    destruct (opt_reload o), (opt_pageNumber o) as [n|], (page self =? 0),
      (opt_pageSize o) as [ps|]; simpl;
      try destruct (ps =? 0); simpl; done.
  - destruct currentView as [v|]; simpl; [|discriminate].
    intros [= <- <-].
    destruct (opt_reload o), (opt_pageNumber o) as [n|], (page self =? 0),
      (opt_pageSize o) as [ps|]; simpl;
      try destruct (ps =? 0); simpl; done.
Qed.

(** C4, as amended. For every [fetch] that resolves a view: when [reload] is
    set or a page number is given, the page becomes 1 if the store is on page
    0, else the given page number, and stays where it is when no page number
    is given; when neither is given the page becomes [page + 1]. The request
    carries the resulting page. *)
Theorem fetch_page_cursor (currentView : option View) (guid : Guid)
    (o : FetchOptions) (self : ListStore) (params : Params) (k : Suspended) :
  (fetch_start currentView guid o self).2 = Some (params, k) ->
  let page' := page (fetch_start currentView guid o self).1 in
  (opt_reload o = true \/ is_Some (opt_pageNumber o) ->
     (page self = 0 -> page' = 1)
     /\ (page self <> 0 -> forall n, opt_pageNumber o = Some n -> page' = n)
     /\ (page self <> 0 -> opt_pageNumber o = None -> page' = page self))
  /\ (opt_reload o = false -> opt_pageNumber o = None -> page' = page self + 1)
  /\ param_page params = page'.
Proof.
  intros Hres page'.
  destruct (fetch_start_resolved _ _ _ _ _ _ Hres) as (Hp & Hq & _).
  fold page' in Hp, Hq. split; [|split; [|done]].
  - intros Hgiven.
    assert (opt_reload o || isDefined (opt_pageNumber o) = true) as Hb.
    { destruct Hgiven as [->|[n ->]]; [done|]. apply orb_true_r. }
    rewrite Hb in Hp. repeat split.
    + intros H0. by rewrite H0 in Hp.
    + intros Hne n Hn. apply Z.eqb_neq in Hne. by rewrite Hne, Hn in Hp.
    + intros Hne Hn. apply Z.eqb_neq in Hne. by rewrite Hne, Hn in Hp.
  - intros Hr Hn. by rewrite Hr, Hn in Hp.
Qed.

(** C4, witness: a reload on page 3 of a store with a selected view. *)
Lemma fetch_page_cursor_witness :
  let self := set_page 3 Sample.empty_store in
  let r := fetch_start (Some Sample.a_view) "g1" Sample.reload_options self in
  exists params k, r.2 = Some (params, k) /\ page r.1 = 3
                   /\ param_page params = 3.
Proof.
  intros self r.
  eexists _, _. split; [reflexivity|].
  pose proof (fetch_page_cursor (Some Sample.a_view) "g1"
                Sample.reload_options self _ _ eq_refl) as (H1 & _ & H3).
  split.
  - destruct H1 as (_ & _ & H); [by left|]. apply H; [done|reflexivity].
  - exact H3.
Defined.

(** C4, counterexample: on page 3, a reload without a page number does not go
    to page 1; and on page 0 an explicit page number 5 is not taken. *)
Lemma fetch_reload_keeps_page :
  page (fetch_start (Some Sample.a_view) "g1" Sample.reload_options
          (set_page 3 Sample.empty_store)).1 <> 1
  /\ page (fetch_start (Some Sample.a_view) "g1"
             {| opt_id := None; opt_query := None; opt_pageNumber := Some 5;
                opt_reload := false; opt_interaction := None;
                opt_pageSize := None |}
             Sample.empty_store).1 <> 5.
Proof. split; vm_compute; discriminate. Qed.

(** ** [fetch] without a view *)

(** Without an explicit id and without a selected view, [fetch] returns
    before it sends anything, having replaced [requestId] and nothing else. *)
Lemma fetch_no_view (guid : Guid) (o : FetchOptions) (self : ListStore) :
  truthy_num (opt_id o) = false ->
  fetch_start None guid o self = (set_requestId (Some guid) self, None).
Proof. unfold fetch_start. by intros ->. Qed.

(** C5, the code at the failing input. A fetch is in flight with token
    ["a"]; [fetch()] is called while no view is selected and mints ["b"].
    The call sends nothing and leaves [page], [pageSize], [list], [total],
    [loading] and the highlight alone, but [requestId] is now ["b"]: the
    response of the fetch in flight is then discarded and [loading] stays
    set. *)
Theorem fetch_no_view_replaces_requestId :
  let self := set_requestId (Some "a") (set_loading true Sample.empty_store) in
  let r := fetch_start None "b" Sample.no_options self in
  r.2 = None
  /\ r.1 = set_requestId (Some "b") self
  /\ requestId r.1 <> requestId self
  /\ forall stringify data,
       (fetch_resume stringify (mkSuspended "a" false None) data self).2
         = [PostProcessData; SDKInvoke "dataFetched"]
       /\ loading
            (fetch_resume stringify (mkSuspended "a" false None) data self).1
          = false
       /\ fetch_resume stringify (mkSuspended "a" false None) data r.1
          = (r.1, [ConsoleLog (cancelled_message "a")])
       /\ loading r.1 = true.
Proof.
  cbv zeta. repeat split; discriminate.
Qed.

(** ** The highlight after a merge *)

(** An item is never strictly equal to an id: [listIncludes] of an item is
    false on every list. *)
Lemma listIncludes_item (l : array Item) (it : Item) :
  listIncludes l (Obj it) = false.
Proof.
  unfold listIncludes. by rewrite findIndex_none.
Qed.

(** A response that passes the guard clears the highlight whenever the
    highlight resolved to an item before the merge, whether or not the merged
    list still holds that id. *)
Lemma fetch_resume_clears_highlight (stringify : Item -> string) (k : Suspended)
    (data : Data) (self : ListStore) (it : Item) :
  requestId self = Some (k_requestId k) ->
  highlighted self = Some it ->
  highlightedId (fetch_resume stringify k data self).1 = None.
Proof.
  intros Hreq Hh. unfold fetch_resume.
  rewrite Hreq, bool_decide_eq_true_2 by done. simpl.
  rewrite Hh. simpl. by rewrite listIncludes_item.
Qed.

(** C3, the code at the failing input. The list is [[{id:1}]] with item 1
    highlighted; the current fetch returns [[{id:1}]]. Line 225 reads the
    highlighted item, not its id, so [listIncludes] compares ids with an
    object and finds nothing: the highlight is cleared although id 1 is in
    the merged list. *)
Theorem fetch_clears_present_highlight :
  let self :=
    set_requestId (Some "a")
      (set_highlightedId (Some 1) (Sample.store_of [mkItem 1 []])) in
  let r := fetch_resume Sample.stringify (mkSuspended "a" true None)
             {| data_total := 1; data_list := Some [mkItem 1 []] |} self in
  highlightedId self = Some 1
  /\ map id (list r.1) = [1]
  /\ listIncludes (list r.1) (Num 1) = true
  /\ highlightedId r.1 = None
  /\ highlighted r.1 = None.
Proof. cbv zeta. repeat split. Qed.

(** ** The merge *)

Lemma ids_fmap (l : array Item) : ids l = id <$> l.
Proof. reflexivity. Qed.

Lemma ids_wrap (stringify : Item -> string) (l : array Item) :
  ids (map (wrap stringify) l) = ids l.
Proof. unfold ids. rewrite map_map. reflexivity. Qed.

Lemma ids_filter_NoDup (P : Item -> Prop) `{!forall x, Decision (P x)}
    (l : array Item) :
  NoDup (ids l) -> NoDup (ids (filter P l)).
Proof.
  rewrite !ids_fmap. intros Hnd.
  eapply sublist_NoDup; [exact Hnd|].
  apply fmap_sublist, sublist_filter.
Qed.

Lemma filter_all {A : Type} (P : A -> Prop) `{!forall x, Decision (P x)}
    (l : array A) :
  (forall x, x ∈ l -> P x) -> filter P l = l.
Proof.
  induction l as [|a r IH]; [done|]. intros Hall.
  rewrite filter_cons_True by (apply Hall; left).
  f_equal. apply IH. intros x Hx. apply Hall. by right.
Qed.

(** One round of the [forEach]: the first item with the id is cut out. When
    ids are unique in the list, this removes every item with that id. *)
Lemma splice_first_filter (x : Z) (l : array Item) :
  NoDup (ids l) ->
  (let index := findIndex (fun i => id i =? x) l in
   if index >=? 0 then splice1 index l else l)
  = filter (fun i => id i <> x) l.
Proof.
  cbv zeta. induction l as [|a r IH]; [done|].
  rewrite ids_fmap, fmap_cons, NoDup_cons, <- ids_fmap.
  intros [Ha Hr]. specialize (IH Hr). simpl findIndex.
  destruct (Z.eqb_spec (id a) x) as [Heq|Hne].
  - rewrite filter_cons_False by (intros H; by apply H).
    simpl. unfold splice1. simpl. symmetry. apply filter_all.
    intros i Hi Hix. apply Ha. rewrite ids_fmap, Heq, <- Hix.
    by apply list_elem_of_fmap_2.
  - rewrite filter_cons_True by done.
    destruct (findIndex_range (fun i => id i =? x) r) as [Hnone|Hrange].
    + rewrite Hnone in *. simpl in *. by rewrite <- IH.
    + destruct (Z.ltb_spec (findIndex (fun i => id i =? x) r) 0); [lia|].
      destruct (Z.geb_spec (findIndex (fun i => id i =? x) r) 0); [|lia].
      destruct (Z.geb_spec (findIndex (fun i => id i =? x) r + 1) 0); [|lia].
      rewrite <- IH. unfold splice1.
      replace (Z.to_nat (findIndex (fun i => id i =? x) r + 1))
        with (S (Z.to_nat (findIndex (fun i => id i =? x) r))) by lia.
      done.
Qed.

Lemma remove_existing_filter (self : ListStore) (n : Item) :
  unique_ids self ->
  remove_existing self n
  = set_list (filter (fun i => id i <> id n) (list self)) self.
Proof.
  intros Hnd. rewrite <- (splice_first_filter _ _ Hnd). cbv zeta.
  unfold remove_existing.
  destruct (findIndex _ _ >=? 0); [done|]. by rewrite set_list_same.
Qed.

Lemma forEach_remove_existing (new : array Item) (self : ListStore) :
  unique_ids self ->
  fold_left remove_existing new self
  = set_list (filter (fun i => id i ∉ ids new) (list self)) self.
Proof.
  revert self. induction new as [|n new IH]; intros self Hnd; simpl.
  - rewrite filter_all; [by rewrite set_list_same|].
    intros x _. apply not_elem_of_nil.
  - rewrite remove_existing_filter by done.
    rewrite IH by (by apply ids_filter_NoDup).
    rewrite set_list_twice. f_equal.
    change (list (set_list ?l _)) with l. rewrite list_filter_filter.
    apply list_filter_iff. intros i. unfold ids. simpl.
    rewrite not_elem_of_cons. tauto.
Qed.

(** Without the uniqueness of ids, the loop still only touches the list. *)
Lemma forEach_remove_existing_frame (new : array Item) (self : ListStore) :
  fold_left remove_existing new self
  = set_list (list (fold_left remove_existing new self)) self.
Proof.
  revert self. induction new as [|n new IH]; intros self; simpl.
  - by rewrite set_list_same.
  - etransitivity; [apply IH|]. generalize (fold_left remove_existing new
      (remove_existing self n)). intros s'.
    unfold remove_existing. destruct (findIndex _ _ >=? 0); done.
Qed.

(** [setList] is the merge of the specification on every store whose list
    has no two items with the same id. *)
Lemma setList_merge (stringify : Item -> string) (list_ : array Item)
    (total_ : Z) (reload : bool) (self : ListStore) :
  unique_ids self ->
  setList stringify list_ total_ reload self
  = merge_as_specified stringify list_ total_ reload self.
Proof.
  intros Hnd. unfold setList, merge_as_specified.
  rewrite forEach_remove_existing by done. by destruct reload.
Qed.

Lemma get_set_field (key : string) (v : Value) (fs : Object) :
  get_field key (set_field key v fs) = Some v.
Proof.
  induction fs as [|[k w] r IH]; simpl.
  - by rewrite String.eqb_refl.
  - destruct (String.eqb_spec k key) as [->|Hne]; simpl.
    + by rewrite String.eqb_refl.
    + by apply String.eqb_neq in Hne as ->.
Qed.

Lemma get_set_field_other (key key' : string) (v : Value) (fs : Object) :
  key' <> key -> get_field key' (set_field key v fs) = get_field key' fs.
Proof.
  intros Hne. induction fs as [|[k w] r IH]; simpl.
  - destruct (String.eqb_spec key key'); [congruence|done].
  - destruct (String.eqb_spec k key) as [->|Hk]; simpl.
    + destruct (String.eqb_spec key key'); [congruence|done].
    + by rewrite IH.
Qed.

(** C2, as amended. For every existing list in which no two items have the
    same id, every incoming record list, total and reload flag: [setList]
    wraps each incoming record as an item with the same id and fields and a
    [source] snapshot, sets [total], removes from the existing list every
    item whose id matches an incoming id, and then replaces the list with the
    incoming items in server order if [reload] is set, and appends them at
    the end otherwise. Nothing else in the store changes. *)
Theorem setList_merges (stringify : Item -> string) (list_ : array Item)
    (total_ : Z) (reload : bool) (self : ListStore) :
  unique_ids self ->
  let incoming := map (wrap stringify) list_ in
  let self' := setList stringify list_ total_ reload self in
  Forall2 (fun t n =>
             id n = id t
             /\ get_field "source" (fields n) = Some (VStr (stringify t))
             /\ forall key, key <> "source" ->
                  get_field key (fields n) = get_field key (fields t))
    list_ incoming
  /\ total self' = total_
  /\ list self'
     = (if reload then incoming
        else filter (fun i => id i ∉ ids list_) (list self) ++ incoming)
  /\ self' = set_list (list self') (set_total total_ self).
Proof.
  intros Hnd incoming self'. split; [|split; [|split]].
  - subst incoming. induction list_ as [|t r IH]; simpl; constructor; [|done].
    split; [done|]. split; [apply get_set_field|].
    intros key Hkey. by apply get_set_field_other.
  - subst self'. rewrite setList_merge by done. unfold merge_as_specified.
    by destruct reload.
  - subst self'. rewrite setList_merge by done. unfold merge_as_specified.
    rewrite ids_wrap. by destruct reload.
  - subst self'. rewrite setList_merge by done. unfold merge_as_specified.
    by destruct reload.
Qed.

(** C2, witness: the example of the specification. Merging
    [[{id:2, v:"new"}]] into [[{id:1}, {id:2}]] without reload yields
    [[{id:1}, {id:2, v:"new"}]], the new item carrying its snapshot. *)
Lemma setList_merges_witness :
  let existing := [mkItem 1 []; mkItem 2 []] in
  let record := mkItem 2 [("v", VStr "new")] in
  unique_ids (Sample.store_of existing)
  /\ list (setList Sample.stringify [record] 2 false
             (Sample.store_of existing))
     = [mkItem 1 [];
        mkItem 2 [("v", VStr "new");
                  ("source", VStr (Sample.stringify record))]].
Proof.
  intros existing record.
  assert (unique_ids (Sample.store_of existing)) as Hnd.
  { unfold unique_ids. simpl. apply NoDup_cons_2; [|apply NoDup_singleton].
    intros H. apply list_elem_of_singleton in H. discriminate. }
  split; [exact Hnd|].
  destruct (setList_merges Sample.stringify [record] 2 false
              (Sample.store_of existing) Hnd) as (_ & _ & Hlist & _).
  rewrite Hlist. reflexivity.
Defined.

(** C2, counterexample: a response that lists id 1 twice leaves two items
    with id 1 in the list; merging one record with id 1 into that list then
    removes only the first of the two, and the second stays in the list
    although its id matches an incoming id. *)
Lemma setList_removes_first_match_only :
  let a := mkItem 1 [("v", VStr "a")] in
  let b := mkItem 1 [("v", VStr "b")] in
  let record := mkItem 1 [("v", VStr "new")] in
  let self := setList Sample.stringify [a; b] 2 true Sample.empty_store in
  let self' := setList Sample.stringify [record] 2 false self in
  let kept := wrap Sample.stringify b in
  In kept (list self) /\ In (id kept) (ids [record]) /\ In kept (list self')
  /\ self' <> merge_as_specified Sample.stringify [record] 2 false self.
Proof.
  cbv zeta. split; [right; by left|]. split; [by left|].
  split; [by left|]. vm_compute. discriminate.
Qed.

(** ** No two items with the same id *)

Lemma patch_first_ids (p : Item -> bool) (f : Item -> Item) (l : array Item) :
  (forall x, p x = true -> id (f x) = id x) ->
  ids (patch_first p f l) = ids l.
Proof.
  intros Hf. induction l as [|x r IH]; simpl; [done|].
  destruct (p x) eqn:Hp; unfold ids in *; simpl.
  - by rewrite Hf.
  - by rewrite IH.
Qed.

Lemma fetch_start_list (currentView : option View) (guid : Guid)
    (o : FetchOptions) (self : ListStore) :
  list (fetch_start currentView guid o self).1 = list self.
Proof.
  unfold fetch_start.
  destruct (truthy_num (opt_id o)), (opt_id o), currentView; simpl; try done;
    destruct (opt_reload o), (opt_pageNumber o), (page self =? 0),
      (opt_pageSize o) as [ps|]; simpl; try destruct (ps =? 0); done.
Qed.

Lemma setList_unique_ids (stringify : Item -> string) (list_ : array Item)
    (total_ : Z) (reload : bool) (self : ListStore) :
  unique_ids self -> NoDup (ids list_) ->
  unique_ids (setList stringify list_ total_ reload self).
Proof.
  intros Hnd Hnew. rewrite setList_merge by done.
  unfold unique_ids, merge_as_specified.
  destruct reload; simpl; [by rewrite ids_wrap|].
  unfold ids at 1. rewrite map_app. fold (ids (map (wrap stringify) list_)).
  rewrite ids_wrap. apply NoDup_app. split; [by apply ids_filter_NoDup|].
  split; [|done]. intros x Hx Hx'.
  change (map id ?l) with (id <$> l) in Hx.
  apply list_elem_of_fmap in Hx as (i & -> & Hi).
  by apply list_elem_of_filter in Hi as [Hi _].
Qed.

(** C9, as amended. On a store whose list has no two items with the same id,
    the list still has none after: [setList] of an incoming record list that
    itself has no two records with the same id; [updateItem] with a patch
    that carries the id it is applied to; either part of [fetch], when the
    response's record list has no two records with the same id; [clear]. *)
Theorem unique_ids_preserved (stringify : Item -> string) (self : ListStore) :
  unique_ids self ->
  (forall list_ total_ reload,
     NoDup (ids list_) ->
     unique_ids (setList stringify list_ total_ reload self))
  /\ (forall itemID patch,
        id patch = itemID -> unique_ids (updateItem itemID patch self).1)
  /\ (forall currentView guid o,
        unique_ids (fetch_start currentView guid o self).1)
  /\ (forall k data,
        (forall l, data_list data = Some l -> NoDup (ids l)) ->
        unique_ids (fetch_resume stringify k data self).1)
  /\ unique_ids (clear self).
Proof.
  intros Hnd. split; [|split; [|split; [|split]]].
  - intros. by apply setList_unique_ids.
  - intros itemID patch Hid. unfold updateItem, unique_ids.
    destruct (find _ _) as [item|] eqn:Hfind; simpl.
    + rewrite patch_first_ids; [done|].
      intros x Hx. apply Z.eqb_eq in Hx. simpl. lia.
    + unfold ids. rewrite map_app. simpl. apply NoDup_app.
      split; [done|]. split; [|apply NoDup_singleton].
      intros x Hx Hx'. apply list_elem_of_singleton in Hx'. subst x.
      change (map id ?l) with (id <$> l) in Hx.
      apply list_elem_of_fmap in Hx as (i & Hi & Hin).
      apply list_elem_of_In in Hin.
      pose proof (find_none _ _ Hfind i Hin) as Hne. simpl in Hne.
      apply Z.eqb_neq in Hne. unfold create in Hi. lia.
  - intros. unfold unique_ids. by rewrite fetch_start_list.
  - intros k data Hdata. unfold fetch_resume.
    destruct (negb _); [done|]. simpl.
    assert (unique_ids
              match data_list data with
              | Some list_ =>
                  setList stringify list_ (data_total data)
                    (k_reload k || isDefined (k_pageNumber k)) self
              | None => self
              end) as Hmerged.
    { destruct (data_list data) as [l|]; [|done].
      apply setList_unique_ids; [done|by apply Hdata]. }
    revert Hmerged. generalize (match data_list data with
      | Some list_ =>
          setList stringify list_ (data_total data)
            (k_reload k || isDefined (k_pageNumber k)) self
      | None => self
      end). intros merged Hmerged.
    by destruct (isDefinedRef _ && _).
  - unfold unique_ids. simpl. apply NoDup_nil_2.
Qed.

(** C9, witness: two pages merged into a store, then a patch of item 2. *)
Lemma unique_ids_preserved_witness :
  let self := Sample.store_of [mkItem 1 []; mkItem 2 []] in
  unique_ids self
  /\ unique_ids (setList Sample.stringify [mkItem 2 []; mkItem 3 []] 3 false
                   self)
  /\ unique_ids (updateItem 2 (mkItem 2 [("v", VStr "new")]) self).1
  /\ unique_ids (clear self).
Proof.
  intros self.
  assert (unique_ids self) as Hnd.
  { unfold unique_ids. simpl. apply NoDup_cons_2; [|apply NoDup_singleton].
    intros H. apply list_elem_of_singleton in H. discriminate. }
  destruct (unique_ids_preserved Sample.stringify self Hnd)
    as (Hset & Hupd & _ & _ & Hclear).
  split; [exact Hnd|]. split; [|split; [|exact Hclear]].
  - apply Hset. unfold ids. simpl.
    apply NoDup_cons_2; [|apply NoDup_singleton].
    intros H. apply list_elem_of_singleton in H. discriminate.
  - apply Hupd. reflexivity.
Defined.

(** C9, counterexample: a response that lists id 1 twice puts two items with
    id 1 into the list of a store that had none, with or without reload. *)
Lemma setList_duplicate_incoming :
  unique_ids Sample.empty_store
  /\ ~ unique_ids (setList Sample.stringify [mkItem 1 []; mkItem 1 []] 2 true
                     Sample.empty_store)
  /\ ~ unique_ids (setList Sample.stringify [mkItem 1 []; mkItem 1 []] 2 false
                     Sample.empty_store).
Proof.
  split; [apply NoDup_nil_2|].
  split; intros H; unfold unique_ids in H; simpl in H;
    apply NoDup_cons in H as [H _]; apply H; by left.
Qed.

(** ** Overlapping fetches *)

Lemma setList_requestId (stringify : Item -> string) (list_ : array Item)
    (total_ : Z) (reload : bool) (self : ListStore) :
  requestId (setList stringify list_ total_ reload self) = requestId self.
Proof.
  unfold setList. rewrite forEach_remove_existing_frame. by destruct reload.
Qed.

Lemma fetch_resume_requestId (stringify : Item -> string) (k : Suspended)
    (data : Data) (self : ListStore) :
  requestId (fetch_resume stringify k data self).1 = requestId self.
Proof.
  unfold fetch_resume. destruct (negb _); [done|]. simpl.
  assert (requestId
            match data_list data with
            | Some list_ =>
                setList stringify list_ (data_total data)
                  (k_reload k || isDefined (k_pageNumber k)) self
            | None => self
            end = requestId self) as Hmerged.
  { destruct (data_list data); [apply setList_requestId|done]. }
  revert Hmerged. generalize (match data_list data with
    | Some list_ =>
        setList stringify list_ (data_total data)
          (k_reload k || isDefined (k_pageNumber k)) self
    | None => self
    end). intros merged <-.
  by destruct (isDefinedRef _ && _).
Qed.

(** The guard, lines 220-223: a response whose token is not the store's
    current [requestId] changes nothing and only logs the cancellation. *)
Lemma fetch_resume_stale (stringify : Item -> string) (k : Suspended)
    (data : Data) (self : ListStore) :
  requestId self <> Some (k_requestId k) ->
  fetch_resume stringify k data self
  = (self, [ConsoleLog (cancelled_message (k_requestId k))]).
Proof.
  intros Hne. unfold fetch_resume.
  by rewrite bool_decide_eq_false_2.
Qed.

Lemma fetch_start_requestId (currentView : option View) (guid : Guid)
    (o : FetchOptions) (self : ListStore) :
  requestId (fetch_start currentView guid o self).1 = Some guid
  /\ forall params k,
       (fetch_start currentView guid o self).2 = Some (params, k) ->
       k_requestId k = guid.
Proof.
  split.
  - unfold fetch_start.
    destruct (truthy_num (opt_id o)), (opt_id o), currentView; simpl;
      try done;
      destruct (opt_reload o), (opt_pageNumber o), (page self =? 0),
        (opt_pageSize o) as [ps|]; simpl; try destruct (ps =? 0); done.
  - intros params k Hres.
    by destruct (fetch_start_resolved _ _ _ _ _ _ Hres) as (_ & _ & _ & _ & ->).
Qed.

Lemma fresh_not_minted (guid : Guid) (s : Sys) :
  fresh guid s = true -> guid ∉ minted s.
Proof.
  unfold fresh. intros Hfresh Hin. apply negb_true_iff in Hfresh.
  apply list_elem_of_In in Hin.
  assert (existsb (String.eqb guid) (minted s) = true) as Hex; [|congruence].
  apply existsb_exists. exists guid. split; [done|apply String.eqb_refl].
Qed.

Lemma exec_consistent (stringify : Item -> string) (s s' : Sys) (e : Event) :
  consistent s -> exec stringify s e = Some s' -> consistent s'.
Proof.
  intros (Hin & Hnd & Hreq). destruct e as [currentView guid o|token data];
    simpl.
  - destruct (fresh guid s) eqn:Hfresh; [|discriminate].
    pose proof (fetch_start_requestId currentView guid o (store s))
      as [Hguid Hk].
    destruct (fetch_start currentView guid o (store s)) as [st req].
    simpl in *. intros [= <-]. repeat split; simpl.
    + intros k Hk'. destruct req as [[params k0]|].
      * apply elem_of_cons in Hk' as [->|Hk'].
        -- rewrite (Hk params k0 eq_refl). left.
        -- right. by apply Hin.
      * right. by apply Hin.
    + apply NoDup_cons_2; [by apply fresh_not_minted|done].
    + done.
  - destruct (find _ _) as [k|]; [|discriminate].
    intros [= <-]. repeat split; simpl.
    + intros k' Hk'. apply list_elem_of_filter in Hk' as [_ Hk'].
      by apply Hin.
    + done.
    + intros Hne. rewrite fetch_resume_requestId. by apply Hreq.
Qed.

Lemma run_consistent (stringify : Item -> string) (evs : array Event)
    (s s' : Sys) :
  consistent s -> run stringify s evs = Some s' -> consistent s'.
Proof.
  revert s. induction evs as [|e evs IH]; intros s Hs; simpl.
  - by intros [= <-].
  - destruct (exec stringify s e) as [s1|] eqn:Hexec; [|discriminate].
    apply IH. by eapply exec_consistent.
Qed.

Lemma init_consistent (st : ListStore) : consistent (init st).
Proof.
  repeat split; simpl.
  - intros k Hk. by apply not_elem_of_nil in Hk.
  - apply NoDup_nil_2.
  - done.
Qed.

(** C1. In every run of overlapping fetches on one store, from any initial
    store: when the response of a suspended fetch arrives, it may change
    [list], [total] or the highlight only if its token still is the store's
    [requestId], which then is the token minted last; a response whose token
    is no longer the [requestId], and so every response of a fetch after
    which another [fetch] minted a token, leaves the whole store as it was and
    calls nothing but [console.log]. *)
Theorem stale_response_discarded (stringify : Item -> string)
    (st0 : ListStore) (evs : array Event) (s : Sys) (k : Suspended)
    (data : Data) :
  run stringify (init st0) evs = Some s ->
  k ∈ inflight s ->
  let r := fetch_resume stringify k data (store s) in
  let discarded :=
    r = (store s, [ConsoleLog (cancelled_message (k_requestId k))]) in
  (requestId (store s) <> Some (k_requestId k) -> discarded)
  /\ (k_requestId k ∈ tail (minted s) -> discarded)
  /\ (list r.1 <> list (store s) \/ total r.1 <> total (store s)
      \/ highlightedId r.1 <> highlightedId (store s) ->
      requestId (store s) = Some (k_requestId k)
      /\ head (minted s) = Some (k_requestId k)).
Proof.
  intros Hrun Hk r discarded.
  destruct (run_consistent stringify evs _ _ (init_consistent st0) Hrun)
    as (Hin & Hnd & Hreq).
  assert (minted s <> []) as Hne.
  { intros Hnil. specialize (Hin k Hk). rewrite Hnil in Hin.
    by apply not_elem_of_nil in Hin. }
  specialize (Hreq Hne).
  assert (requestId (store s) <> Some (k_requestId k) -> discarded) as Hstale.
  { intros Hstale. by apply fetch_resume_stale. }
  split; [exact Hstale|]. split.
  - intros Htail. apply Hstale. rewrite Hreq.
    destruct (minted s) as [|g rest]; [done|]. simpl in *.
    apply NoDup_cons in Hnd as [Hg _]. intros [= ->]. by apply Hg.
  - intros Hchanged.
    destruct (decide (requestId (store s) = Some (k_requestId k)))
      as [Heq|Hneq].
    + split; [done|]. by rewrite <- Hreq.
    + exfalso. specialize (Hstale Hneq). unfold discarded in Hstale.
      subst r. rewrite Hstale in Hchanged. simpl in Hchanged.
      by destruct Hchanged as [H|[H|H]]; apply H.
Qed.

(** C1, witness: a fetch with token ["a"] is in flight when a reload mints
    ["b"]; the response to the first one is discarded. *)
Lemma stale_response_discarded_witness :
  let evs := [Fetch (Some Sample.a_view) "a" Sample.no_options;
              Fetch (Some Sample.a_view) "b" Sample.reload_options] in
  let k := mkSuspended "a" false None in
  let data := {| data_total := 1; data_list := Some [mkItem 9 []] |} in
  exists s,
    run Sample.stringify (init Sample.empty_store) evs = Some s
    /\ k ∈ inflight s
    /\ k_requestId k ∈ tail (minted s)
    /\ fetch_resume Sample.stringify k data (store s)
       = (store s, [ConsoleLog (cancelled_message "a")]).
Proof.
  intros evs k data.
  pose (s := default (init Sample.empty_store)
               (run Sample.stringify (init Sample.empty_store) evs)).
  assert (run Sample.stringify (init Sample.empty_store) evs = Some s)
    as Hrun by (vm_compute; reflexivity).
  assert (k ∈ inflight s) as Hk by (vm_compute; right; left).
  assert (k_requestId k ∈ tail (minted s)) as Htail by (vm_compute; left).
  exists s. split; [exact Hrun|]. split; [exact Hk|]. split; [exact Htail|].
  exact (proj1 (proj2 (stale_response_discarded Sample.stringify
           Sample.empty_store evs s k data Hrun Hk)) Htail).
Defined.

End ListCache.

(** * Properties of the orchestrator *)
Section Orchestrator.
Import AppStore.

Ltac run_act :=
  unfold mbind, act_bind, mret, act_ret, gets, modify, emit, when, throw,
    on_taskStore, on_annotationStore in *;
  simpl in *.

(** ** The API funnel *)

(** The bookkeeping of [apiCall] once the transport has handed back an
    object, lines 460-483: the result is returned, and nothing but
    [serverError] is touched. *)
Lemma apiCall_records_error (methodName : string) (result : ApiResult)
    (self : AppStore) :
  let failure :=
    truthy_str (error result)
    && negb (bool_decide (status result = Some 404)) in
  let r := apiCall_resume methodName result self in
  completion r = Return result
  /\ after r = set_serverError (serverError (after r)) self
  /\ serverError (after r)
     = (if failure then
          match response result with
          | Some payload =>
              <[methodName := {| se_error := "Something went wrong";
                                 se_response := payload |}]>
                (serverError self)
          | None => serverError self
          end
        else delete methodName (serverError self))
  /\ serverError (after r) !! methodName
     = (if failure then
          match response result with
          | Some payload =>
              Some {| se_error := "Something went wrong";
                      se_response := payload |}
          | None => serverError self !! methodName
          end
        else None).
Proof.
  cbv zeta. unfold apiCall_resume, completion, after.
  destruct (truthy_str (error result)
            && negb (bool_decide (status result = Some 404))).
  - destruct (response result) as [payload|]; run_act.
    + repeat split. by rewrite lookup_insert_eq.
    + repeat split. by destruct self.
  - run_act. repeat split. by rewrite lookup_delete_eq.
Qed.

(** C6, as amended. For every method name and every transport result that
    is an object, [apiCall] returns the result itself and does not throw,
    and it touches nothing but [serverError]: when the result carries an
    error (a truthy [error]) and its status is not 404, the entry of the
    method is set to the response payload if the result has one and is left
    as it was if it has none; when the result carries no error or is a 404,
    the entry of the method is removed. [apiCall] throws, with the store and
    [serverError] as they were and nothing logged or notified, when a
    transform hook throws, when the transport has no method of that name,
    when the transport call rejects, and when the result is [null] or
    [undefined]. *)
Theorem apiCall_funnel (methodName : string) (result : ApiResult)
    (self : AppStore) :
  let failure :=
    truthy_str (error result)
    && negb (bool_decide (status result = Some 404)) in
  let r := apiCall methodName (Resolves (Some result)) self in
  completion r = Return result
  /\ after r = set_serverError (serverError (after r)) self
  /\ serverError (after r)
     = (if failure then
          match response result with
          | Some payload =>
              <[methodName := {| se_error := "Something went wrong";
                                 se_response := payload |}]>
                (serverError self)
          | None => serverError self
          end
        else delete methodName (serverError self))
  /\ serverError (after r) !! methodName
     = (if failure then
          match response result with
          | Some payload =>
              Some {| se_error := "Something went wrong";
                      se_response := payload |}
          | None => serverError self !! methodName
          end
        else None)
  /\ (forall e, apiCall methodName (HookThrows e) self = (Throw e, self, []))
  /\ apiCall methodName NoMethod self
     = (Throw "TypeError: self.API[methodName] is not a function", self, [])
  /\ (forall e, apiCall methodName (Rejects e) self = (Throw e, self, []))
  /\ apiCall methodName (Resolves None) self
     = (Throw "TypeError: Cannot read properties of undefined", self, []).
Proof.
  cbv zeta. unfold apiCall.
  destruct (apiCall_records_error methodName result self)
    as (Hret & Hframe & Hmap & Hentry).
  repeat split; done.
Qed.

(** C6, counterexample: the transport resolves with [undefined], or its
    promise rejects: [apiCall] throws instead of returning a result. *)
Lemma apiCall_raises :
  completion (apiCall "project" (Resolves None) Sample.app)
  = Throw "TypeError: Cannot read properties of undefined"
  /\ completion (apiCall "project" (Rejects "Failed to fetch") Sample.app)
     = Throw "Failed to fetch".
Proof. split; reflexivity. Qed.

(** ** The parameters of [next_task] *)

(** The bundle under the two persisted preferences. *)
Lemma actionParams_next_task (view : option Tab) :
  let snapshot := snapshot_of view in
  let filters :=
    {| filters_conjunction := default "and" (view ≫= conjunction);
       filters_items := default [] (view ≫= serializedFilters) |} in
  actionParams view (Some "all") "next_task"
  = (if bool_decide (snapshot = default_selection)
     then {| params_ordering := Absent; params_selectedItems := Absent;
             params_filters := Absent |}
     else {| params_ordering := Present (view ≫= ordering);
             params_selectedItems := Present snapshot;
             params_filters := Absent |})
  /\ actionParams view (Some "filtered") "next_task"
     = {| params_ordering := Present (view ≫= ordering);
          params_selectedItems := Absent;
          params_filters := Present filters |}.
Proof.
  cbv zeta. unfold actionParams, snapshot_of, default_selection. simpl.
  split; [|done].
  destruct (default _ (view ≫= tab_selected)) as [[] [|i l]]; done.
Qed.

Lemma invokeAction_start_bundle (host : Host) (actionId : string)
    (body : option Object) (self : AppStore) (inv : Invocation)
    (self' : AppStore) (out : array Effect) :
  invokeAction_start host actionId body self = (Return inv, self', out) ->
  bundle_of inv
  = actionParams (currentView self) (labelstream_mode host) actionId.
Proof.
  unfold invokeAction_start. run_act.
  destruct (currentView self) as [v|];
    destruct (_ && _), (getAction host actionId); simpl;
    intros [= <- _ _]; done.
Qed.

Lemma invokeAction_start_returns (host : Host) (actionId : string)
    (body : option Object) (self : AppStore) :
  is_Some (currentView self) ->
  exists inv, completion (invokeAction_start host actionId body self)
              = Return inv.
Proof.
  intros [v Hv]. unfold invokeAction_start, completion. run_act.
  rewrite Hv. destruct (_ && _), (getAction host actionId); simpl; eauto.
Qed.

(** C7. For every call of [invokeAction] with the action id ["next_task"]
    that gets as far as building the bundle (which every call with a selected
    view does): under the persisted preference ["all"] the bundle has no
    [filters], and it has neither [selectedItems] nor [ordering] when the
    selection snapshot is the default [{all: false, included: []}], while
    both are kept for any other snapshot; under the preference ["filtered"]
    the bundle lacks [selectedItems] only. *)
Theorem next_task_bundle (host : Host) (body : option Object)
    (self : AppStore) (inv : Invocation) (self' : AppStore)
    (out : array Effect) :
  invokeAction_start host "next_task" body self = (Return inv, self', out) ->
  let view := currentView self in
  let p := bundle_of inv in
  (labelstream_mode host = Some "all" ->
     params_filters p = Absent
     /\ (snapshot_of view = default_selection ->
         params_selectedItems p = Absent /\ params_ordering p = Absent)
     /\ (snapshot_of view <> default_selection ->
         params_selectedItems p = Present (snapshot_of view)
         /\ params_ordering p = Present (view ≫= ordering)))
  /\ (labelstream_mode host = Some "filtered" ->
      params_selectedItems p = Absent
      /\ params_ordering p = Present (view ≫= ordering)
      /\ params_filters p
         = Present
             {| filters_conjunction := default "and" (view ≫= conjunction);
                filters_items := default [] (view ≫= serializedFilters) |}).
Proof.
  intros Hinv view p. subst p.
  rewrite (invokeAction_start_bundle _ _ _ _ _ _ _ Hinv). fold view.
  destruct (actionParams_next_task view) as [Hall Hfiltered]. split.
  - intros ->. rewrite Hall. case_bool_decide as Hsnap.
    + repeat split; done.
    + repeat split; done.
  - intros ->. by rewrite Hfiltered.
Qed.

Lemma act_bind_pure {A B : Type} (m : Act A) (f : A -> Act B) (a : A)
    (self self' : AppStore) :
  m self = (Return a, self', []) -> (m ≫= f) self = f a self'.
Proof.
  intros Hm. unfold mbind, act_bind. rewrite Hm.
  by destruct (f a self') as [[c s] o].
Qed.

(** ** Labeling *)

Lemma confirmLabelingConfigured_ok (self : AppStore) :
  labelingIsConfigured self = true ->
  confirmLabelingConfigured self = (Return true, self, []).
Proof. unfold confirmLabelingConfigured. run_act. by intros ->. Qed.

Lemma closeLabeling_explorer (host : Host) (options : option (option bool))
    (self : AppStore) :
  completion (closeLabeling host options self) = Return tt
  /\ mode (after (closeLabeling host options self)) = explorer.
Proof.
  unfold closeLabeling, unsetTask, SDK_setMode, setMode, completion, after.
  run_act.
  destruct (not_false _); simpl;
    match goal with
    | |- context [match ?o with Some t => _ | None => _ end _] =>
        destruct o
    end; done.
Qed.

Lemma setTask_mode (p : TaskParams) (self : AppStore) :
  (exists s, completion (setTask p self) = Return s)
  /\ mode (after (setTask p self)) = mode self.
Proof.
  unfold setTask, setTask_select, completion, after. run_act.
  destruct (not_false _), (taskID p) as [task|]; simpl; eauto;
    destruct (mode self) eqn:Hmode, (annotationID p) as [| |a]; simpl; eauto;
    destruct (DataStore.setSelected _ _) as [st o]; simpl; eauto.
Qed.

(** C7, witness: a local callback is registered for ["next_task"], the
    preference is ["all"], and the selected view has no selection: the
    callback gets a bundle without any of the three keys. *)
Lemma next_task_bundle_witness :
  exists inv,
    invokeAction_start Sample.host_all "next_task" None Sample.app
    = (Return inv, Sample.app, [])
    /\ params_filters (bundle_of inv) = Absent
    /\ params_selectedItems (bundle_of inv) = Absent
    /\ params_ordering (bundle_of inv) = Absent.
Proof.
  eexists. split; [reflexivity|].
  destruct (next_task_bundle Sample.host_all None Sample.app _ _ _ eq_refl)
    as [Hall _].
  destruct (Hall eq_refl) as (Hf & Hdefault & _).
  destruct (Hdefault eq_refl) as [Hs Ho].
  split; [exact Hf|]. split; [exact Hs|exact Ho].
Defined.

(** C8. On a store where labeling is configured and that has an active data
    store: when a single-item load is in flight, [startLabeling] changes
    nothing and calls nothing. When none is in flight, on an item that is
    the active selection ([isSelected]) it sets the mode to labeling and
    then runs [closeLabeling], which leaves the application in explorer
    mode; on an item that is not, it sets the mode to labeling and starts
    [setTask], with the item's [task_id] as task and its id as annotation
    when it carries a [task_id], and with its id as task and no annotation
    otherwise, and the application is in labeling mode when the call
    returns. *)
Theorem startLabeling_toggles (host : Host) (item : option LabelItem)
    (options : option bool) (self : AppStore) (ds : DataStore.ListStore) :
  labelingIsConfigured self = true ->
  dataStore self = Some ds ->
  let r := startLabeling host item options self in
  (DataStore.loadingItem ds = true -> r = (Return tt, self, []))
  /\ (DataStore.loadingItem ds = false ->
      (forall it, item = Some it -> isSelected it = Some true ->
         r = (SDK_setMode labeling;; closeLabeling host None) self
         /\ completion r = Return tt
         /\ mode (after r) = explorer)
      /\ (forall it, item = Some it -> isSelected it <> Some true ->
           r = (SDK_setMode labeling;;
                setTask (labelingParams it options);; mret tt) self
           /\ (forall t, task_id it = Some t ->
                 labelingParams it options
                 = {| taskID := Some t;
                      annotationID := Annotation (item_id it);
                      pushState := options |})
           /\ (task_id it = None ->
                 labelingParams it options
                 = {| taskID := Some (item_id it);
                      annotationID := NoAnnotation;
                      pushState := options |})
           /\ completion r = Return tt
           /\ mode (after r) = labeling)).
Proof.
  intros Hconf Hds r. subst r. unfold startLabeling.
  rewrite (act_bind_pure _ _ true self self)
    by (by apply confirmLabelingConfigured_ok).
  change (negb true) with false. cbv beta iota.
  rewrite (act_bind_pure _ _ (Some ds) self self)
    by (unfold gets; by rewrite Hds).
  split.
  - by intros ->.
  - intros ->. split.
    + intros it -> Hsel. rewrite Hsel. simpl.
      split; [done|].
      pose proof (closeLabeling_explorer host None (set_mode labeling self))
        as [Hc Hm].
      unfold completion, after in *.
      unfold SDK_setMode, setMode. run_act.
      destruct (closeLabeling host None (set_mode labeling self))
        as [[c s] o]. simpl in *. by subst c.
    + intros it -> Hsel. rewrite bool_decide_eq_false_2 by done. simpl.
      split; [done|]. split; [|split].
      * intros t Ht. unfold labelingParams. by rewrite Ht.
      * intros Ht. unfold labelingParams. by rewrite Ht.
      * pose proof (setTask_mode (labelingParams it options)
                      (set_mode labeling self)) as [[s Hc] Hm].
        unfold completion, after in *.
        unfold SDK_setMode, setMode. run_act.
        destruct (setTask (labelingParams it options)
                    (set_mode labeling self)) as [[c s'] o].
        simpl in *. by subst c.
Qed.

(** C8, witness: task 1 is selected and nothing is loading; starting to
    label task 1 again ends in explorer mode. *)
Lemma startLabeling_toggles_witness :
  labelingIsConfigured Sample.app = true
  /\ dataStore Sample.app = Some (taskStore Sample.app)
  /\ mode (after (startLabeling Sample.host_all (Some Sample.selected_task)
                    None Sample.app)) = explorer.
Proof.
  split; [reflexivity|]. split; [reflexivity|].
  destruct (startLabeling_toggles Sample.host_all (Some Sample.selected_task)
              None Sample.app (taskStore Sample.app) eq_refl eq_refl)
    as [_ Hidle].
  destruct (Hidle eq_refl) as [Hselected _].
  destruct (Hselected Sample.selected_task eq_refl eq_refl) as (_ & _ & Hmode).
  exact Hmode.
Defined.

End Orchestrator.

(** * Further properties of the list cache *)
Section ListCacheFurther.
Import DataStore.

(** ** Finding by id *)

Lemma find_findIndex_none {A : Type} (p : A -> bool) (l : array A) :
  find p l = None -> findIndex p l = -1.
Proof.
  intros Hfind. apply findIndex_none. intros x Hx.
  by apply (find_none _ _ Hfind).
Qed.

Lemma findIndex_first {A : Type} (p : A -> bool) (l : array A) (i : nat)
    (x : A) :
  l !! i = Some x -> p x = true ->
  (forall j y, (j < i)%nat -> l !! j = Some y -> p y = false) ->
  findIndex p l = Z.of_nat i /\ find p l = Some x.
Proof.
  revert i. induction l as [|a r IH]; intros i Hi Hp Hbefore; [done|].
  destruct i as [|i]; simpl in *.
  - injection Hi as ->. by rewrite Hp.
  - rewrite (Hbefore 0%nat a) by (lia || done).
    destruct (IH i Hi Hp) as [-> ->].
    + intros j y Hj Hy. apply (Hbefore (S j)); [lia|done].
    + split; [|done].
      destruct (Z.ltb_spec (Z.of_nat i) 0); lia.
Qed.

(** With unique ids, the item at an index is the one found by its id. *)
Lemma unique_ids_lookup (l : array Item) (i : nat) (it : Item) :
  NoDup (ids l) -> l !! i = Some it ->
  findIndex (fun x => id x =? id it) l = Z.of_nat i
  /\ find (fun x => id x =? id it) l = Some it.
Proof.
  intros Hnd Hi. apply (findIndex_first _ _ i it Hi); [apply Z.eqb_refl|].
  intros j y Hj Hy. apply Z.eqb_neq. intros Heq.
  rewrite ids_fmap in Hnd.
  assert ((id <$> l) !! j = Some (id y)) as Hj'
    by (by rewrite list_lookup_fmap, Hy).
  assert ((id <$> l) !! i = Some (id y)) as Hi'
    by (by rewrite list_lookup_fmap, Hi, Heq).
  pose proof (NoDup_lookup _ _ _ _ Hnd Hj' Hi'). lia.
Qed.

Lemma highlighted_at (self : ListStore) (i : nat) (it : Item) :
  unique_ids self -> list self !! i = Some it ->
  highlightedId self = Some (id it) ->
  highlighted_index self = Z.of_nat i /\ highlighted self = Some it.
Proof.
  intros Hnd Hi Hh. unfold highlighted_index, highlighted. rewrite Hh.
  by apply unique_ids_lookup.
Qed.

Lemma highlighted_none_index (self : ListStore) :
  highlighted self = None -> highlighted_index self = -1.
Proof.
  unfold highlighted, highlighted_index.
  destruct (highlightedId self); [apply find_findIndex_none|done].
Qed.

(** Highlighting the item at an index of a list with unique ids. *)
Lemma highlight_at_index (guid : Guid) (self : ListStore) (index : Z)
    (i : nat) (it : Item) :
  unique_ids self -> index = Z.of_nat i -> list self !! i = Some it ->
  highlighted
    (set_updated guid
       (set_highlighted (ref_of (at_index index (list self))) self))
  = Some it.
Proof.
  intros Hnd -> Hi. unfold at_index.
  destruct (Z.ltb_spec (Z.of_nat i) 0); [lia|].
  rewrite Nat2Z.id, Hi. unfold highlighted. simpl.
  exact (proj2 (unique_ids_lookup _ _ _ Hnd Hi)).
Qed.

(** ** Moving the highlight *)

Lemma focusNext_highlighted (guid : Guid) (self : ListStore) (i : nat)
    (it : Item) :
  unique_ids self ->
  list self !! i = Some it ->
  highlightedId self = Some (id it) ->
  highlighted (focusNext guid self)
  = list self !! Nat.min (i + 1) (length (list self) - 1).
Proof.
  intros Hnd Hi Hh.
  destruct (highlighted_at self i it Hnd Hi Hh) as [Hidx _].
  pose proof (lookup_lt_Some _ _ _ Hi) as Hlt.
  destruct (lookup_lt_is_Some_2 (list self)
              (Nat.min (i + 1) (length (list self) - 1))) as [it' Hit'];
    [lia|].
  rewrite Hit'. unfold focusNext. rewrite Hidx.
  apply highlight_at_index
    with (i := Nat.min (i + 1) (length (list self) - 1)); [done|lia|done].
Qed.

Lemma focusPrev_highlighted (guid : Guid) (self : ListStore) (i : nat)
    (it : Item) :
  unique_ids self ->
  list self !! i = Some it ->
  highlightedId self = Some (id it) ->
  highlighted (focusPrev guid self) = list self !! (i - 1)%nat.
Proof.
  intros Hnd Hi Hh.
  destruct (highlighted_at self i it Hnd Hi Hh) as [Hidx _].
  pose proof (lookup_lt_Some _ _ _ Hi) as Hlt.
  destruct (lookup_lt_is_Some_2 (list self) (i - 1)%nat) as [it' Hit'];
    [lia|].
  rewrite Hit'. unfold focusPrev. rewrite Hidx.
  apply highlight_at_index with (i := (i - 1)%nat); [done|lia|done].
Qed.

Lemma highlighted_Some_id (self : ListStore) (it : Item) :
  highlighted self = Some it -> highlightedId self = Some (id it).
Proof.
  unfold highlighted. destruct (highlightedId self) as [hid|]; [|done].
  intros Hfind. apply find_some in Hfind as [_ Heq].
  apply Z.eqb_eq in Heq. by rewrite Heq.
Qed.

(** X1. On a list with unique ids whose item at index [i] is highlighted,
    [focusNext] highlights the item at index [i + 1], and keeps the highlight
    on the last item when [i] is the last index; it changes nothing else but
    [updated]. *)
Theorem focusNext_moves (guid : Guid) (self : ListStore) (i : nat)
    (it : Item) :
  unique_ids self ->
  list self !! i = Some it ->
  highlightedId self = Some (id it) ->
  highlighted (focusNext guid self)
  = list self !! Nat.min (i + 1) (length (list self) - 1)
  /\ focusNext guid self
     = set_updated guid
         (set_highlightedId (highlightedId (focusNext guid self)) self).
Proof.
  intros Hnd Hi Hh. split; [by apply focusNext_highlighted with it|done].
Qed.

(** X1, witness: three items, the second highlighted. *)
Lemma focusNext_moves_witness :
  let self :=
    set_highlightedId (Some 2)
      (Sample.store_of [mkItem 1 []; mkItem 2 []; mkItem 3 []]) in
  unique_ids self
  /\ highlighted (focusNext "u1" self) = Some (mkItem 3 []).
Proof.
  intros self.
  assert (unique_ids self) as Hnd.
  { unfold unique_ids. simpl. repeat (apply NoDup_cons_2);
      rewrite ?elem_of_cons, ?elem_of_nil; try apply NoDup_nil_2;
      intros H; decompose [or] H; discriminate || done. }
  split; [exact Hnd|].
  exact (proj1 (focusNext_moves "u1" self 1 (mkItem 2 []) Hnd eq_refl
                  eq_refl)).
Defined.

(** X2. On a list with unique ids whose item at index [i] is highlighted,
    [focusPrev] highlights the item at index [i - 1], and keeps the
    highlight on the first item when [i] is 0; it changes nothing else but
    [updated]. *)
Theorem focusPrev_moves (guid : Guid) (self : ListStore) (i : nat)
    (it : Item) :
  unique_ids self ->
  list self !! i = Some it ->
  highlightedId self = Some (id it) ->
  highlighted (focusPrev guid self) = list self !! (i - 1)%nat
  /\ focusPrev guid self
     = set_updated guid
         (set_highlightedId (highlightedId (focusPrev guid self)) self).
Proof.
  intros Hnd Hi Hh. split; [by apply focusPrev_highlighted with it|done].
Qed.

(** X2, witness: three items, the first highlighted: it stays. *)
Lemma focusPrev_moves_witness :
  let self :=
    set_highlightedId (Some 1)
      (Sample.store_of [mkItem 1 []; mkItem 2 []; mkItem 3 []]) in
  unique_ids self
  /\ highlighted (focusPrev "u1" self) = Some (mkItem 1 []).
Proof.
  intros self.
  assert (unique_ids self) as Hnd.
  { unfold unique_ids. simpl. repeat (apply NoDup_cons_2);
      rewrite ?elem_of_cons, ?elem_of_nil; try apply NoDup_nil_2;
      intros H; decompose [or] H; discriminate || done. }
  split; [exact Hnd|].
  exact (proj1 (focusPrev_moves "u1" self 0 (mkItem 1 []) Hnd eq_refl
                  eq_refl)).
Defined.

(** X3. On a list with unique ids, [focusNext] followed by [focusPrev]
    brings the highlight back to the item it was on, unless that was the last
    item; and [focusPrev] followed by [focusNext] brings it back unless that
    was the first item. *)
Theorem focus_there_and_back (g1 g2 : Guid) (self : ListStore) (i : nat)
    (it : Item) :
  unique_ids self ->
  list self !! i = Some it ->
  highlightedId self = Some (id it) ->
  ((i + 1 < length (list self))%nat ->
     highlightedId (focusPrev g2 (focusNext g1 self)) = highlightedId self)
  /\ ((0 < i)%nat ->
      highlightedId (focusNext g2 (focusPrev g1 self)) = highlightedId self).
Proof.
  intros Hnd Hi Hh. pose proof (lookup_lt_Some _ _ _ Hi) as Hlt. split.
  - intros Hlast.
    pose proof (focusNext_highlighted g1 self i it Hnd Hi Hh) as Hnext.
    replace (Nat.min (i + 1) (length (list self) - 1)) with (S i) in Hnext
      by lia.
    destruct (lookup_lt_is_Some_2 (list self) (S i)) as [it' Hit']; [lia|].
    rewrite Hit' in Hnext.
    pose proof (focusPrev_highlighted g2 (focusNext g1 self) (S i) it' Hnd
                  Hit' (highlighted_Some_id _ _ Hnext)) as Hback.
    simpl in Hback. rewrite Nat.sub_0_r in Hback.
    change (list (focusNext g1 self)) with (list self) in Hback.
    rewrite Hi in Hback. rewrite Hh. by apply highlighted_Some_id.
  - intros Hfirst.
    pose proof (focusPrev_highlighted g1 self i it Hnd Hi Hh) as Hprev.
    destruct (lookup_lt_is_Some_2 (list self) (i - 1)%nat) as [it' Hit'];
      [lia|].
    rewrite Hit' in Hprev.
    pose proof (focusNext_highlighted g2 (focusPrev g1 self) (i - 1)%nat it'
                  Hnd Hit' (highlighted_Some_id _ _ Hprev)) as Hback.
    change (list (focusPrev g1 self)) with (list self) in Hback.
    replace (Nat.min (i - 1 + 1) (length (list self) - 1)) with i in Hback
      by lia.
    rewrite Hi in Hback. rewrite Hh. by apply highlighted_Some_id.
Qed.

(** X3, witness: from the second of three items, forth and back. *)
Lemma focus_there_and_back_witness :
  let self :=
    set_highlightedId (Some 2)
      (Sample.store_of [mkItem 1 []; mkItem 2 []; mkItem 3 []]) in
  unique_ids self
  /\ highlightedId (focusPrev "u2" (focusNext "u1" self)) = Some 2
  /\ highlightedId (focusNext "u2" (focusPrev "u1" self)) = Some 2.
Proof.
  intros self.
  assert (unique_ids self) as Hnd.
  { unfold unique_ids. simpl. repeat (apply NoDup_cons_2);
      rewrite ?elem_of_cons, ?elem_of_nil; try apply NoDup_nil_2;
      intros H; decompose [or] H; discriminate || done. }
  destruct (focus_there_and_back "u1" "u2" self 1 (mkItem 2 []) Hnd eq_refl
              eq_refl) as [Hforth Hback].
  split; [exact Hnd|]. split; [apply Hforth|apply Hback]; simpl; lia.
Defined.

(** X4. When the highlight resolves to no item (none is set, or the id is
    not in the list), both [focusNext] and [focusPrev] highlight the first
    item of the list; on an empty list both leave the highlight unset. *)
Theorem focus_from_nothing (guid : Guid) (self : ListStore) :
  highlighted self = None ->
  highlighted (focusNext guid self) = head (list self)
  /\ highlighted (focusPrev guid self) = head (list self)
  /\ highlightedId (focusNext guid self) = id <$> head (list self)
  /\ highlightedId (focusPrev guid self) = id <$> head (list self).
Proof.
  intros Hnone. apply highlighted_none_index in Hnone.
  unfold focusNext, focusPrev, highlighted. rewrite Hnone.
  destruct (list self) as [|x r] eqn:Hl; simpl; [done|].
  replace (Z.min (Z.of_nat (S (length r)) - 1) (-1 + 1)) with 0 by lia.
  simpl. rewrite Hl. simpl. by rewrite Z.eqb_refl.
Qed.

(** X4, witness: a store fresh from its defaults, and one with two items. *)
Lemma focus_from_nothing_witness :
  highlighted (focusNext "u1" Sample.empty_store) = None
  /\ highlighted
       (focusPrev "u1" (Sample.store_of [mkItem 4 []; mkItem 5 []]))
     = Some (mkItem 4 []).
Proof.
  split.
  - exact (proj1 (focus_from_nothing "u1" Sample.empty_store eq_refl)).
  - exact (proj1 (proj2 (focus_from_nothing "u1"
                           (Sample.store_of [mkItem 4 []; mkItem 5 []])
                           eq_refl))).
Defined.

(** ** Per-item loading flags *)

Lemma itemIsLoading_filter (m n : Z) (l : array Z) :
  existsb (Z.eqb m) (List.filter (fun item => negb (item =? n)) l)
  = existsb (Z.eqb m) l && negb (m =? n).
Proof.
  induction l as [|x r IH]; simpl; [done|].
  destruct (Z.eqb_spec x n) as [->|Hne]; simpl.
  - rewrite IH. destruct (Z.eqb_spec m n); simpl; [|done].
    by rewrite andb_false_r.
  - rewrite IH. destruct (Z.eqb_spec m x) as [->|]; simpl; [|done].
    by destruct (Z.eqb_spec x n).
Qed.

(** X5. [finishLoading(id)] ends the loading of [id] however often
    [setLoading(id)] was called before, since it drops every occurrence of
    the id; the other ids and the scalar flag are left as they were. *)
Theorem finishLoading_ends (n m : Z) (self : ListStore) :
  itemIsLoading n (finishLoading (Some n) self) = false
  /\ itemIsLoading n
       (finishLoading (Some n) (setLoading (Some n) (setLoading (Some n) self)))
     = false
  /\ itemIsLoading m (finishLoading (Some n) self)
     = itemIsLoading m self && negb (m =? n)
  /\ loadingItem (finishLoading (Some n) self) = loadingItem self
  /\ finishLoading (Some n) self
     = set_loadingItems (loadingItems (finishLoading (Some n) self)) self.
Proof.
  unfold itemIsLoading, finishLoading. simpl.
  rewrite !itemIsLoading_filter, Z.eqb_refl, !andb_false_r. repeat split.
Qed.

Lemma filter_not_loading (n : Z) (l : array Z) :
  existsb (Z.eqb n) l = false ->
  List.filter (fun item => negb (item =? n)) l = l.
Proof.
  induction l as [|x r IH]; simpl; [done|].
  rewrite (Z.eqb_sym x n). destruct (n =? x); simpl; [done|].
  intros Hr. by rewrite IH.
Qed.

(** X6. [setLoading] always makes the store loading, and [finishLoading]
    undoes it: for an id that was not loading, [setLoading(id)] followed by
    [finishLoading(id)] gives back the store as it was, and so do the calls
    without id when the scalar flag was not set. *)
Theorem setLoading_finishLoading (n : Z) (self : ListStore) :
  isLoading (setLoading (Some n) self) = true
  /\ isLoading (setLoading None self) = true
  /\ (itemIsLoading n self = false ->
      finishLoading (Some n) (setLoading (Some n) self) = self)
  /\ (loadingItem self = false ->
      finishLoading None (setLoading None self) = self).
Proof.
  split; [|split; [done|split]].
  - unfold isLoading, setLoading. simpl. rewrite length_app. simpl.
    apply orb_true_iff. right. apply Z.gtb_lt. lia.
  - unfold itemIsLoading, finishLoading, setLoading. simpl. intros Hn.
    rewrite List.filter_app, filter_not_loading by done. simpl.
    rewrite Z.eqb_refl. simpl. rewrite app_nil_r. by destruct self.
  - unfold finishLoading, setLoading. destruct self. simpl. by intros ->.
Qed.

(** X6, witness: item 7 starts and finishes loading on a fresh store. *)
Lemma setLoading_finishLoading_witness :
  finishLoading (Some 7) (setLoading (Some 7) Sample.empty_store)
  = Sample.empty_store
  /\ finishLoading None (setLoading None Sample.empty_store)
     = Sample.empty_store.
Proof.
  destruct (setLoading_finishLoading 7 Sample.empty_store)
    as (_ & _ & Hid & Hflag).
  split; [apply Hid|apply Hflag]; reflexivity.
Defined.

(** ** Selecting by id *)

Lemma hasRecord_find (n : Z) (self : ListStore) :
  hasRecord n self
  = match find (fun t => id t =? n) (list self) with
    | Some _ => true
    | None => false
    end.
Proof.
  unfold hasRecord. induction (list self) as [|x r IH]; simpl; [done|].
  by destruct (id x =? n).
Qed.

Lemma find_id_again (n : Z) (l : array Item) (it : Item) :
  find (fun t => id t =? n) l = Some it ->
  find (fun t => id t =? id it) l = Some it.
Proof.
  intros Hfind. destruct (find_some _ _ Hfind) as [_ Hid].
  apply Z.eqb_eq in Hid. by rewrite Hid.
Qed.

Lemma setSelected_absent (n : Z) (self : ListStore) :
  find (fun t => id t =? n) (list self) = None ->
  setSelected (Num n) self = (self, []).
Proof. unfold setSelected. by intros ->. Qed.

Lemma setSelected_same (n : Z) (self : ListStore) (it : Item) :
  find (fun t => id t =? n) (list self) = Some it ->
  Some (id it) = (id <$> selected self) ->
  setSelected (Num n) self = (self, []).
Proof.
  unfold setSelected. intros -> Hsel. by rewrite bool_decide_eq_true_2.
Qed.

Lemma setSelected_change (n : Z) (self : ListStore) (it : Item) :
  find (fun t => id t =? n) (list self) = Some it ->
  Some (id it) <> (id <$> selected self) ->
  setSelected (Num n) self
  = (set_highlighted (Obj it) (set_selected (Obj it) self),
     [SDKInvoke "taskSelected"]).
Proof.
  unfold setSelected. intros -> Hsel. by rewrite bool_decide_eq_false_2.
Qed.

(** X7. [setSelected(id)] with an id that no item of the list has changes
    nothing and tells the host nothing. With an id of the list, the selected
    item afterwards is the first item with that id; if the selection
    changed, the highlight follows it and the host is told once. Calling it
    again with the same id changes nothing and tells the host nothing. *)
Theorem setSelected_by_id (n : Z) (self : ListStore) :
  let r := setSelected (Num n) self in
  (hasRecord n self = false -> r = (self, []))
  /\ (hasRecord n self = true ->
      selected r.1 = find (fun t => id t =? n) (list self)
      /\ selectedId r.1 = Some n
      /\ (selected self = None \/ selectedId self <> Some n ->
          highlightedId r.1 = Some n /\ r.2 = [SDKInvoke "taskSelected"]))
  /\ setSelected (Num n) r.1 = (r.1, [])
  /\ list r.1 = list self.
Proof.
  cbv zeta. rewrite hasRecord_find.
  destruct (find (fun t => id t =? n) (list self)) as [it|] eqn:Hfind.
  - pose proof (find_id_again _ _ _ Hfind) as Hagain.
    destruct (find_some _ _ Hfind) as [_ Hid]. apply Z.eqb_eq in Hid.
    split; [done|].
    destruct (decide (Some (id it) = (id <$> selected self))) as [Hsel|Hsel].
    + (* the item is the selection already *)
      rewrite (setSelected_same n self it Hfind Hsel). simpl.
      rewrite (setSelected_same n self it Hfind Hsel).
      split; [|done]. intros _.
      destruct (selected self) as [cur|] eqn:Hcur; [|done].
      injection Hsel as Hsel.
      pose proof Hcur as Hcur'. unfold selected in Hcur'.
      destruct (selectedId self) as [sid|] eqn:Hsid; [|done].
      destruct (find_some _ _ Hcur') as [_ Hcid]. apply Z.eqb_eq in Hcid.
      assert (sid = n) as -> by lia.
      split; [by rewrite <- Hfind|]. split; [done|].
      intros [?|?]; done.
    + (* the selection changes *)
      rewrite (setSelected_change n self it Hfind Hsel). simpl.
      split.
      * intros _. unfold selected. simpl. rewrite Hagain, Hid.
        repeat split; done.
      * split; [|done]. apply setSelected_same with it; [done|].
        unfold selected. simpl. by rewrite Hagain.
  - rewrite (setSelected_absent n self Hfind). simpl.
    rewrite (setSelected_absent n self Hfind). done.
Qed.

(** X7, witness: selecting item 2 of two items, and an id that is not
    there. *)
Lemma setSelected_by_id_witness :
  let self := Sample.store_of [mkItem 1 []; mkItem 2 []] in
  setSelected (Num 9) self = (self, [])
  /\ selectedId (setSelected (Num 2) self).1 = Some 2
  /\ highlightedId (setSelected (Num 2) self).1 = Some 2.
Proof.
  intros self.
  destruct (setSelected_by_id 9 self) as (Habsent & _).
  destruct (setSelected_by_id 2 self) as (_ & Hpresent & _).
  split; [by apply Habsent|].
  destruct (Hpresent eq_refl) as (_ & Hsel & Hhigh).
  split; [exact Hsel|]. apply Hhigh. by left.
Defined.

(** ** The request of a fetch *)

(** X8. After [clear()], and on any store that is on page 0, every [fetch]
    that resolves a view asks for page 1, whatever [reload] and [pageNumber]
    say. *)
Theorem first_fetch_after_clear (currentView : option View) (guid : Guid)
    (o : FetchOptions) (self : ListStore) (params : Params) (k : Suspended) :
  (fetch_start currentView guid o (clear self)).2 = Some (params, k) ->
  param_page params = 1
  /\ page (fetch_start currentView guid o (clear self)).1 = 1.
Proof.
  intros Hres.
  destruct (fetch_start_resolved _ _ _ _ _ _ Hres) as (Hp & Hq & _).
  rewrite Hq, Hp. simpl.
  by destruct (opt_reload o || isDefined (opt_pageNumber o)).
Qed.

(** X8, witness: page number 5 is asked for right after a clear. *)
Lemma first_fetch_after_clear_witness :
  let o := {| opt_id := None; opt_query := None; opt_pageNumber := Some 5;
              opt_reload := false; opt_interaction := None;
              opt_pageSize := None |} in
  let self := set_page 4 Sample.empty_store in
  exists params k,
    (fetch_start (Some Sample.a_view) "g" o (clear self)).2
    = Some (params, k)
    /\ param_page params = 1.
Proof.
  intros o self. eexists _, _. split; [reflexivity|].
  exact (proj1 (first_fetch_after_clear (Some Sample.a_view) "g" o self _ _
                  eq_refl)).
Defined.

(** X9. The request of a [fetch] carries either a non-empty [query] or a
    [view], never both and never neither. A [fetch] without explicit id on
    a selected view that is not virtual always sends the view's id and no
    query. *)
Theorem fetch_query_or_view (currentView : option View) (guid : Guid)
    (o : FetchOptions) (self : ListStore) (params : Params) (k : Suspended) :
  (fetch_start currentView guid o self).2 = Some (params, k) ->
  ((exists q, param_query params = Some q /\ q <> EmptyString
              /\ param_view params = None)
   \/ (param_query params = None /\ is_Some (param_view params)))
  /\ (forall v, truthy_num (opt_id o) = false -> currentView = Some v ->
       virtual v = false ->
       param_query params = None /\ param_view params = Some (view_id v)).
Proof.
  unfold fetch_start.
  destruct (truthy_num (opt_id o)) eqn:Hid; simpl.
  - destruct (opt_id o) as [viewId|]; simpl; [|discriminate].
    intros [= <- _]. simpl. split; [|done].
    destruct (opt_query o) as [q|]; simpl; [|right; eauto].
    destruct (String.eqb_spec q EmptyString); simpl; [right; eauto|].
    left. eauto.
  - destruct currentView as [v|]; simpl; [|discriminate].
    intros [= <- _]. simpl. split.
    + destruct (virtual v); simpl; [|right; eauto].
      destruct (query v) as [q|]; simpl; [|right; eauto].
      destruct (String.eqb_spec q EmptyString); simpl; [right; eauto|].
      left. eauto.
    + intros v' _ [= <-] ->. done.
Qed.

(** X9, witness: the sample view is not virtual. *)
Lemma fetch_query_or_view_witness :
  exists params k,
    (fetch_start (Some Sample.a_view) "g" Sample.no_options
       Sample.empty_store).2 = Some (params, k)
    /\ param_query params = None /\ param_view params = Some 7.
Proof.
  eexists _, _. split; [reflexivity|].
  exact (proj2 (fetch_query_or_view (Some Sample.a_view) "g"
                  Sample.no_options Sample.empty_store _ _ eq_refl)
           Sample.a_view eq_refl eq_refl eq_refl).
Defined.

(** ** The response of a fetch *)

Lemma setList_frame (stringify : Item -> string) (list_ : array Item)
    (total_ : Z) (reload : bool) (self : ListStore) :
  setList stringify list_ total_ reload self
  = set_list (list (setList stringify list_ total_ reload self))
      (set_total total_ self).
Proof.
  unfold setList. rewrite forEach_remove_existing_frame. by destruct reload.
Qed.

Lemma setList_reload (stringify : Item -> string) (list_ : array Item)
    (total_ : Z) (self : ListStore) :
  setList stringify list_ total_ true self
  = set_list (map (wrap stringify) list_) (set_total total_ self).
Proof. by rewrite setList_frame. Qed.

(** X10. A reload end to end: [reload()] asks again for the page the store
    is on (page 1 on a store on page 0), and when its response arrives
    before any other fetch starts, the list becomes exactly the records of
    the response, wrapped and in server order, whatever the list held
    before; [total] is the response's, [loading] is cleared and the host is
    told that data was fetched. *)
Theorem reload_replaces_list (stringify : Item -> string)
    (currentView : option View) (guid : Guid) (id_ : option Z)
    (query_ interaction : option string) (self : ListStore)
    (params : Params) (k : Suspended) (records : array Item) (total_ : Z) :
  (reload_start currentView guid id_ query_ interaction self).2
  = Some (params, k) ->
  let started := (reload_start currentView guid id_ query_ interaction self).1
  in
  let r := fetch_resume stringify k
             {| data_total := total_; data_list := Some records |} started in
  param_page params = (if page self =? 0 then 1 else page self)
  /\ loading started = true
  /\ list r.1 = map (wrap stringify) records
  /\ total r.1 = total_
  /\ loading r.1 = false
  /\ page r.1 = param_page params
  /\ pageSize r.1 = pageSize self
  /\ selectedId r.1 = selectedId self
  /\ r.2 = [PostProcessData; SDKInvoke "dataFetched"].
Proof.
  intros Hres started r. unfold reload_start in *.
  destruct (fetch_start_resolved _ _ _ _ _ _ Hres)
    as (Hpage & Hparam & Hloading & Hreq & ->).
  fold started in Hpage, Hparam, Hloading, Hreq. simpl in Hpage.
  assert (pageSize started = pageSize self
          /\ selectedId started = selectedId self) as [Hps Hsel].
  { subst started. unfold fetch_start. simpl.
    destruct (truthy_num id_), id_, currentView; simpl; try done;
      destruct (page self =? 0); done. }
  subst r. unfold fetch_resume.
  rewrite Hreq, bool_decide_eq_true_2 by done.
  cbn [negb data_list data_total k_reload k_pageNumber orb].
  rewrite setList_reload.
  destruct (isDefinedRef _ && _); simpl; rewrite ?Hparam, ?Hpage; done.
Qed.

(** X10, witness: a store on page 2 holding two items is reloaded. *)
Lemma reload_replaces_list_witness :
  let self := set_page 2 (Sample.store_of [mkItem 1 []; mkItem 2 []]) in
  exists params k,
    (reload_start (Some Sample.a_view) "g" None None None self).2
    = Some (params, k)
    /\ param_page params = 2
    /\ ids (list (fetch_resume Sample.stringify k
                    {| data_total := 1; data_list := Some [mkItem 5 []] |}
                    (reload_start (Some Sample.a_view) "g" None None None
                       self).1).1) = [5].
Proof.
  intros self. eexists _, _. split; [reflexivity|].
  destruct (reload_replaces_list Sample.stringify (Some Sample.a_view) "g"
              None None None self _ _ [mkItem 5 []] 1 eq_refl)
    as (Hpage & _ & Hlist & _).
  split; [exact Hpage|]. rewrite Hlist. reflexivity.
Defined.

(** X11. A response without a record list (an error-shaped result) that
    passes the guard merges nothing: [list], [total], [page], [pageSize] and
    [selectedId] stay as they were, but [loading] is cleared and the host is
    still told that data was fetched. *)
Theorem fetch_resume_without_list (stringify : Item -> string)
    (k : Suspended) (total_ : Z) (self : ListStore) :
  requestId self = Some (k_requestId k) ->
  let r := fetch_resume stringify k
             {| data_total := total_; data_list := None |} self in
  list r.1 = list self
  /\ total r.1 = total self
  /\ page r.1 = page self
  /\ pageSize r.1 = pageSize self
  /\ selectedId r.1 = selectedId self
  /\ loading r.1 = false
  /\ r.2 = [PostProcessData; SDKInvoke "dataFetched"].
Proof.
  intros Hreq r. subst r. unfold fetch_resume.
  rewrite Hreq, bool_decide_eq_true_2 by done. simpl.
  by destruct (isDefinedRef _ && _).
Qed.

(** X11, witness: the store is loading and its request comes back empty. *)
Lemma fetch_resume_without_list_witness :
  let self :=
    set_requestId (Some "a")
      (set_loading true (Sample.store_of [mkItem 1 []])) in
  let r := fetch_resume Sample.stringify (mkSuspended "a" false None)
             {| data_total := 0; data_list := None |} self in
  list r.1 = [mkItem 1 []] /\ loading r.1 = false.
Proof.
  intros self r.
  destruct (fetch_resume_without_list Sample.stringify
              (mkSuspended "a" false None) 0 self eq_refl)
    as (Hlist & _ & _ & _ & _ & Hloading & _).
  split; [exact Hlist|exact Hloading].
Defined.

(** ** Upsert *)

Lemma patch_first_length (p : Item -> bool) (f : Item -> Item)
    (l : array Item) :
  length (patch_first p f l) = length l.
Proof.
  induction l as [|x r IH]; simpl; [done|].
  destruct (p x); simpl; by rewrite ?IH.
Qed.

Lemma patch_first_found (p : Item -> bool) (f : Item -> Item)
    (l : array Item) (x : Item) :
  find p l = Some x -> In (f x) (patch_first p f l).
Proof.
  induction l as [|y r IH]; simpl; [done|].
  destruct (p y).
  - intros [= ->]. by left.
  - intros Hfind. right. by apply IH.
Qed.

Lemma patch_first_others (p : Item -> bool) (f : Item -> Item)
    (l : array Item) (x : Item) :
  In x l -> p x = false -> In x (patch_first p f l).
Proof.
  induction l as [|y r IH]; simpl; [done|].
  intros [->|Hin] Hp.
  - rewrite Hp. by left.
  - destruct (p y); right; [done|by apply IH].
Qed.

(** X12. [updateItem(itemID, patch)] never drops an item: the list keeps
    its length when an item with [itemID] exists and grows by exactly one
    otherwise; every item with another id is still in the list; the item
    the call returns is in the list; and only [list] changes. *)
Theorem updateItem_upserts (itemID : Z) (patch : Item) (self : ListStore)
    (x : Item) :
  let r := updateItem itemID patch self in
  length (list r.1)
  = (length (list self) + (if hasRecord itemID self then 0 else 1))%nat
  /\ In r.2 (list r.1)
  /\ (In x (list self) -> id x <> itemID -> In x (list r.1))
  /\ r.1 = set_list (list r.1) self.
Proof.
  cbv zeta. rewrite hasRecord_find. unfold updateItem.
  destruct (find (fun t => id t =? itemID) (list self)) as [item|] eqn:Hfind;
    simpl.
  - rewrite patch_first_length. split; [lia|].
    split; [by apply patch_first_found|]. split; [|done].
    intros Hin Hne. apply patch_first_others; [done|]. by apply Z.eqb_neq.
  - rewrite length_app. simpl. split; [done|].
    split; [apply in_or_app; right; by left|]. split; [|done].
    intros Hin _. apply in_or_app. by left.
Qed.

(** X12, witness: item 1 survives the insertion of item 3. *)
Lemma updateItem_upserts_witness :
  let self := Sample.store_of [mkItem 1 []; mkItem 2 []] in
  In (mkItem 1 []) (list (updateItem 3 (mkItem 3 []) self).1)
  /\ length (list (updateItem 3 (mkItem 3 []) self).1) = 3%nat.
Proof.
  intros self.
  destruct (updateItem_upserts 3 (mkItem 3 []) self (mkItem 1 []))
    as (Hlen & _ & Hkeep & _).
  split; [apply Hkeep; [by left|discriminate]|exact Hlen].
Defined.

(** ** What fetches never touch *)

Lemma fetch_start_untouched (currentView : option View) (guid : Guid)
    (o : FetchOptions) (self : ListStore) :
  let st := (fetch_start currentView guid o self).1 in
  selectedId st = selectedId self /\ highlightedId st = highlightedId self
  /\ loadingItem st = loadingItem self
  /\ loadingItems st = loadingItems self
  /\ updated st = updated self /\ total st = total self.
Proof.
  cbv zeta. unfold fetch_start.
  destruct (truthy_num (opt_id o)), (opt_id o), currentView; simpl; try done;
    destruct (opt_reload o), (opt_pageNumber o), (page self =? 0),
      (opt_pageSize o) as [ps|]; simpl; try destruct (ps =? 0); done.
Qed.

Lemma fetch_resume_untouched (stringify : Item -> string) (k : Suspended)
    (data : Data) (self : ListStore) :
  let st := (fetch_resume stringify k data self).1 in
  selectedId st = selectedId self /\ loadingItem st = loadingItem self
  /\ loadingItems st = loadingItems self /\ updated st = updated self
  /\ page st = page self /\ pageSize st = pageSize self.
Proof.
  cbv zeta. unfold fetch_resume. destruct (negb _); [done|]. simpl.
  destruct (data_list data) as [l|].
  - rewrite setList_frame. by destruct (isDefinedRef _ && _).
  - by destruct (isDefinedRef _ && _).
Qed.

(** X13. Whatever fetches are started and whatever responses arrive, in
    whatever order, the selection id of the store, its per-item loading
    flags and its [updated] stamp stay what they were at the start: fetching
    never selects, deselects or marks an item as loading. *)
Theorem run_keeps_selection (stringify : Item -> string) (st0 : ListStore)
    (evs : array Event) (s : Sys) :
  run stringify (init st0) evs = Some s ->
  selectedId (store s) = selectedId st0
  /\ loadingItem (store s) = loadingItem st0
  /\ loadingItems (store s) = loadingItems st0
  /\ updated (store s) = updated st0.
Proof.
  change st0 with (store (init st0)) at 2 3 4 5.
  generalize (init st0). intros s0. revert s0.
  induction evs as [|e evs IH]; intros s0; simpl.
  - by intros [= <-].
  - destruct (exec stringify s0 e) as [s1|] eqn:Hexec; [|discriminate].
    intros Hrun. destruct (IH s1 Hrun) as (-> & -> & -> & ->).
    clear IH Hrun. destruct e as [currentView guid o|token data]; simpl in *.
    + destruct (fresh guid s0); [|discriminate].
      pose proof (fetch_start_untouched currentView guid o (store s0))
        as (H1 & _ & H2 & H3 & H4 & _).
      destruct (fetch_start currentView guid o (store s0)) as [st req].
      injection Hexec as <-. done.
    + destruct (find _ _) as [k|]; [|discriminate].
      pose proof (fetch_resume_untouched stringify k data (store s0))
        as (H1 & H2 & H3 & H4 & _).
      injection Hexec as <-. done.
Qed.

(** X13, witness: item 1 is selected, a page is fetched and merged. *)
Lemma run_keeps_selection_witness :
  let st0 := set_selectedId (Some 1) (Sample.store_of [mkItem 1 []]) in
  let evs :=
    [Fetch (Some Sample.a_view) "a" Sample.no_options;
     Response "a" {| data_total := 2; data_list := Some [mkItem 2 []] |}] in
  exists s, run Sample.stringify (init st0) evs = Some s
            /\ ids (list (store s)) = [1; 2]
            /\ selectedId (store s) = Some 1.
Proof.
  intros st0 evs.
  pose (s := default (init st0) (run Sample.stringify (init st0) evs)).
  assert (run Sample.stringify (init st0) evs = Some s) as Hrun
    by (vm_compute; reflexivity).
  exists s. split; [exact Hrun|]. split; [vm_compute; reflexivity|].
  exact (proj1 (run_keeps_selection Sample.stringify st0 evs s Hrun)).
Defined.

(** ** The order of arrival *)

Lemma fetch_resume_commute (stringify : Item -> string) (ka kb : Suspended)
    (da db : Data) (self : ListStore) :
  k_requestId ka <> k_requestId kb ->
  (fetch_resume stringify kb db (fetch_resume stringify ka da self).1).1
  = (fetch_resume stringify ka da (fetch_resume stringify kb db self).1).1.
Proof.
  intros Hne.
  destruct (decide (requestId self = Some (k_requestId ka))) as [Ha|Ha].
  - assert (requestId self <> Some (k_requestId kb)) as Hb by congruence.
    rewrite (fetch_resume_stale stringify kb db self Hb). simpl.
    rewrite fetch_resume_stale; [done|].
    by rewrite fetch_resume_requestId.
  - rewrite (fetch_resume_stale stringify ka da self Ha). simpl.
    rewrite (fetch_resume_stale stringify ka da); [done|].
    by rewrite fetch_resume_requestId.
Qed.

Lemma find_after_response (a b : Guid) (l : array Suspended) :
  a <> b ->
  find (fun k => String.eqb (k_requestId k) a)
    (filter (fun k' => k_requestId k' <> b) l)
  = find (fun k => String.eqb (k_requestId k) a) l.
Proof.
  intros Hne. induction l as [|k r IH]; [done|].
  destruct (decide (k_requestId k = b)) as [Hk|Hk].
  - rewrite filter_cons_False by (intros H; by apply H). simpl.
    destruct (String.eqb_spec (k_requestId k) a); [congruence|done].
  - rewrite filter_cons_True by done. simpl. by rewrite IH.
Qed.

Lemma run_app (stringify : Item -> string) (s : Sys)
    (evs evs' : array Event) :
  run stringify s (evs ++ evs')
  = run stringify s evs ≫= fun s' => run stringify s' evs'.
Proof.
  revert s. induction evs as [|e evs IH]; intros s; simpl; [done|].
  destruct (exec stringify s e); [apply IH|done].
Qed.

(** X14. The responses of two different fetches may arrive in either order:
    after any run, delivering the response of one and then the response of
    the other leaves the store as delivering them the other way round. *)
Theorem responses_commute (stringify : Item -> string) (st0 : ListStore)
    (evs : array Event) (a b : Guid) (da db : Data) (s1 s2 : Sys) :
  a <> b ->
  run stringify (init st0) (evs ++ [Response a da; Response b db]) = Some s1 ->
  run stringify (init st0) (evs ++ [Response b db; Response a da]) = Some s2 ->
  store s1 = store s2.
Proof.
  intros Hne. rewrite !run_app.
  destruct (run stringify (init st0) evs) as [s|]; [|discriminate]. simpl.
  destruct (find (fun k => String.eqb (k_requestId k) a) (inflight s))
    as [ka|] eqn:Hka;
    destruct (find (fun k => String.eqb (k_requestId k) b) (inflight s))
      as [kb|] eqn:Hkb; simpl;
    rewrite ?(find_after_response b a), ?(find_after_response a b) by done;
    rewrite ?Hka, ?Hkb; try discriminate.
  intros [= <-] [= <-]. simpl.
  apply fetch_resume_commute.
  apply find_some in Hka as [_ Hka]. apply find_some in Hkb as [_ Hkb].
  apply String.eqb_eq in Hka, Hkb. congruence.
Qed.

(** X14, witness: two fetches in flight, answered in both orders. *)
Lemma responses_commute_witness :
  let evs := [Fetch (Some Sample.a_view) "a" Sample.no_options;
              Fetch (Some Sample.a_view) "b" Sample.no_options] in
  let da := {| data_total := 1; data_list := Some [mkItem 1 []] |} in
  let db := {| data_total := 2; data_list := Some [mkItem 2 []] |} in
  exists s1 s2,
    run Sample.stringify (init Sample.empty_store)
      (evs ++ [Response "a" da; Response "b" db]) = Some s1
    /\ run Sample.stringify (init Sample.empty_store)
         (evs ++ [Response "b" db; Response "a" da]) = Some s2
    /\ store s1 = store s2
    /\ ids (list (store s1)) = [2].
Proof.
  intros evs da db.
  pose (s1 := default (init Sample.empty_store)
                (run Sample.stringify (init Sample.empty_store)
                   (evs ++ [Response "a" da; Response "b" db]))).
  pose (s2 := default (init Sample.empty_store)
                (run Sample.stringify (init Sample.empty_store)
                   (evs ++ [Response "b" db; Response "a" da]))).
  assert (run Sample.stringify (init Sample.empty_store)
            (evs ++ [Response "a" da; Response "b" db]) = Some s1) as H1
    by (vm_compute; reflexivity).
  assert (run Sample.stringify (init Sample.empty_store)
            (evs ++ [Response "b" db; Response "a" da]) = Some s2) as H2
    by (vm_compute; reflexivity).
  exists s1, s2. split; [exact H1|]. split; [exact H2|].
  split; [|vm_compute; reflexivity].
  refine (responses_commute Sample.stringify Sample.empty_store evs "a" "b"
            da db s1 s2 _ H1 H2).
  discriminate.
Defined.

(** X29. In every run, the response to the fetch that minted the latest
    token is never discarded: when it arrives, [loading] is cleared, the
    post-processing hook runs and the host is told that data was fetched,
    whether or not the response carries a record list. *)
Theorem latest_response_is_processed (stringify : Item -> string)
    (st0 : ListStore) (evs : array Event) (s : Sys) (k : Suspended)
    (data : Data) :
  run stringify (init st0) evs = Some s ->
  k ∈ inflight s ->
  head (minted s) = Some (k_requestId k) ->
  let r := fetch_resume stringify k data (store s) in
  loading r.1 = false
  /\ r.2 = [PostProcessData; SDKInvoke "dataFetched"]
  /\ (forall records, data_list data = Some records ->
       total r.1 = data_total data
       /\ forall n, In n records -> In (wrap stringify n) (list r.1)).
Proof.
  intros Hrun Hk Hlatest r.
  destruct (run_consistent stringify evs _ _ (init_consistent st0) Hrun)
    as (_ & _ & Hreq).
  assert (requestId (store s) = Some (k_requestId k)) as Hfresh.
  { rewrite <- Hlatest. apply Hreq. intros Hnil. by rewrite Hnil in Hlatest. }
  subst r. unfold fetch_resume.
  rewrite Hfresh, bool_decide_eq_true_2 by done.
  cbn [negb]. split; [done|]. split; [done|].
  intros records Hrecords. rewrite Hrecords. cbn [fst].
  rewrite setList_frame.
  split; [by destruct (isDefinedRef _ && _)|].
  intros n Hn.
  assert (In (wrap stringify n)
            (list (setList stringify records (data_total data)
                     (k_reload k || isDefined (k_pageNumber k)) (store s))))
    as Hin.
  { unfold setList.
    destruct (k_reload k || isDefined (k_pageNumber k)); simpl.
    - by apply in_map.
    - apply in_or_app. right. by apply in_map. }
  by destruct (isDefinedRef _ && _).
Qed.

(** X29, witness: one fetch in flight, answered with one record. *)
Lemma latest_response_is_processed_witness :
  let evs := [Fetch (Some Sample.a_view) "a" Sample.no_options] in
  let k := mkSuspended "a" false None in
  let data := {| data_total := 1; data_list := Some [mkItem 9 []] |} in
  exists s,
    run Sample.stringify (init Sample.empty_store) evs = Some s
    /\ loading (store s) = true
    /\ loading (fetch_resume Sample.stringify k data (store s)).1 = false.
Proof.
  intros evs k data.
  pose (s := default (init Sample.empty_store)
               (run Sample.stringify (init Sample.empty_store) evs)).
  assert (run Sample.stringify (init Sample.empty_store) evs = Some s)
    as Hrun by (vm_compute; reflexivity).
  assert (k ∈ inflight s) as Hk by (vm_compute; left).
  exists s. split; [exact Hrun|]. split; [vm_compute; reflexivity|].
  refine (proj1 (latest_response_is_processed Sample.stringify
                   Sample.empty_store evs s k data Hrun Hk _)).
  vm_compute. reflexivity.
Defined.

End ListCacheFurther.

(** * Further properties of the orchestrator *)
Section OrchestratorFurther.
Import AppStore.

Ltac step_act :=
  unfold mbind, act_bind, mret, act_ret, gets, modify, emit, when, throw,
    on_taskStore, on_annotationStore in *;
  simpl in *.

(** ** Feature interfaces *)

(** X15. [enableInterface] and [disableInterface] never add a name to the
    [interfaces] map and never remove one: a name that is not in the map is
    refused with a warning and the map stays as it is, and for a known name
    only its value changes. *)
Theorem interfaces_keep_names (name : string) (interfaces : gmap string bool) :
  dom (enableInterface name interfaces).1 = dom interfaces
  /\ dom (disableInterface name interfaces).1 = dom interfaces
  /\ (interfaces !! name = None ->
      enableInterface name interfaces
        = (interfaces, [unknown_interface name])
      /\ disableInterface name interfaces
        = (interfaces, [unknown_interface name])
      /\ interfaceEnabled name interfaces = false).
Proof.
  unfold enableInterface, disableInterface, interfaceEnabled.
  destruct (interfaces !! name) as [v|] eqn:Hname.
  - rewrite bool_decide_eq_true_2 by eauto. simpl.
    rewrite !dom_insert_L.
    assert (name ∈ dom interfaces) as Hin by (apply elem_of_dom; eauto).
    assert ({[name]} ∪ dom interfaces = dom interfaces) as Hdom
      by (apply subseteq_union_1_L; by apply singleton_subseteq_l).
    split; [done|]. split; [done|done].
  - rewrite bool_decide_eq_false_2 by (intros [? ?]; done). simpl.
    repeat split; done.
Qed.

(** X15, witness: an unknown name on a map with one interface. *)
Lemma interfaces_keep_names_witness :
  let interfaces : gmap string bool := {[ "tabs" := true ]} in
  enableInterface "labelButton" interfaces
  = (interfaces, [unknown_interface "labelButton"]).
Proof.
  intros interfaces.
  destruct (interfaces_keep_names "labelButton" interfaces)
    as (_ & _ & Hunknown).
  destruct Hunknown as (Henable & _); [|exact Henable].
  vm_compute. reflexivity.
Defined.

Lemma enableInterface_known (name : string) (interfaces : gmap string bool) :
  is_Some (interfaces !! name) ->
  enableInterface name interfaces = (<[name := true]> interfaces, []).
Proof.
  intros Hknown. unfold enableInterface.
  by rewrite (bool_decide_eq_true_2 _ Hknown).
Qed.

Lemma disableInterface_known (name : string) (interfaces : gmap string bool) :
  is_Some (interfaces !! name) ->
  disableInterface name interfaces = (<[name := false]> interfaces, []).
Proof.
  intros Hknown. unfold disableInterface.
  by rewrite (bool_decide_eq_true_2 _ Hknown).
Qed.

(** X16. For a name that is in the map, [interfaceEnabled] is true after
    [enableInterface] and false after [disableInterface], whatever the order
    of earlier calls; no call changes the value of another name, and none
    warns. *)
Theorem interfaces_read_back (name other : string)
    (interfaces : gmap string bool) :
  is_Some (interfaces !! name) ->
  interfaceEnabled name (enableInterface name interfaces).1 = true
  /\ interfaceEnabled name (disableInterface name interfaces).1 = false
  /\ interfaceEnabled name
       (enableInterface name (disableInterface name interfaces).1).1 = true
  /\ (enableInterface name interfaces).2 = []
  /\ (disableInterface name interfaces).2 = []
  /\ (other <> name ->
      (enableInterface name interfaces).1 !! other = interfaces !! other
      /\ (disableInterface name interfaces).1 !! other = interfaces !! other).
Proof.
  intros Hknown.
  rewrite (enableInterface_known name (disableInterface name interfaces).1),
    !(enableInterface_known name interfaces),
    !(disableInterface_known name interfaces);
    try done; [|rewrite disableInterface_known by done; simpl;
                rewrite lookup_insert_eq; eauto].
  unfold interfaceEnabled. simpl. rewrite !lookup_insert_eq.
  repeat split; try done.
  - by rewrite lookup_insert_ne.
  - by rewrite lookup_insert_ne.
Qed.

(** X16, witness: a disabled interface is enabled. *)
Lemma interfaces_read_back_witness :
  let interfaces : gmap string bool := {[ "tabs" := false ]} in
  interfaceEnabled "tabs" interfaces = false
  /\ interfaceEnabled "tabs" (enableInterface "tabs" interfaces).1 = true.
Proof.
  intros interfaces. split; [vm_compute; reflexivity|].
  refine (proj1 (interfaces_read_back "tabs" "tabs" interfaces _)).
  exists false. vm_compute. reflexivity.
Defined.

(** ** The API funnel *)

(** X17. [apiCall] for one method never touches the error recorded for
    another method. *)
Theorem apiCall_other_methods (methodName other : string)
    (result : ApiResult) (self : AppStore) :
  other <> methodName ->
  serverError (after (apiCall_resume methodName result self)) !! other
  = serverError self !! other.
Proof.
  intros Hne. unfold apiCall_resume, after.
  destruct (truthy_str (error result)
            && negb (bool_decide (status result = Some 404))).
  - destruct (response result) as [payload|]; step_act; [|done].
    by rewrite lookup_insert_ne.
  - step_act. by rewrite lookup_delete_ne.
Qed.

(** X17, witness: a failing call of ["tasks"] leaves the entry of
    ["project"] alone. *)
Lemma apiCall_other_methods_witness :
  let failed := {| error := Some "Bad request"; status := Some 400;
                   response := Some [("detail", VStr "no")];
                   reload := false |} in
  serverError (after (apiCall_resume "tasks" failed Sample.app)) !! "project"
  = None.
Proof.
  intros failed.
  rewrite (apiCall_other_methods "tasks" "project" failed Sample.app);
    [reflexivity|discriminate].
Defined.

Lemma apiCall_resume_serverError (methodName : string) (result : ApiResult)
    (self : AppStore) :
  serverError (after (apiCall_resume methodName result self))
  = (if truthy_str (error result)
        && negb (bool_decide (status result = Some 404))
     then
       match response result with
       | Some payload =>
           <[methodName := {| se_error := "Something went wrong";
                              se_response := payload |}]> (serverError self)
       | None => serverError self
       end
     else delete methodName (serverError self)).
Proof.
  unfold apiCall_resume, after.
  destruct (truthy_str (error result)
            && negb (bool_decide (status result = Some 404))).
  - by destruct (response result) as [payload|].
  - done.
Qed.

(** X18. An error is forgotten by the next good call: after any call of a
    method, a call of the same method whose result carries no error, or is a
    404, leaves [serverError] without an entry for the method and otherwise
    as it was before the two calls. *)
Theorem apiCall_error_then_success (methodName : string)
    (first second : ApiResult) (self : AppStore) :
  truthy_str (error second)
  && negb (bool_decide (status second = Some 404)) = false ->
  serverError
    (after (apiCall_resume methodName second
              (after (apiCall_resume methodName first self))))
  = delete methodName (serverError self).
Proof.
  intros Hgood. rewrite !apiCall_resume_serverError, Hgood.
  destruct (truthy_str (error first) && _); [|by rewrite delete_delete_eq].
  destruct (response first); [|done]. by rewrite delete_insert_eq.
Qed.

(** X18, witness: a 500 with a payload, then a 404. *)
Lemma apiCall_error_then_success_witness :
  let failed := {| error := Some "Server error"; status := Some 500;
                   response := Some [("detail", VStr "boom")];
                   reload := false |} in
  let missing := {| error := Some "Not found"; status := Some 404;
                    response := None; reload := false |} in
  serverError (after (apiCall_resume "task" failed Sample.app)) !! "task"
  = Some {| se_error := "Something went wrong";
            se_response := [("detail", VStr "boom")] |}
  /\ serverError
       (after (apiCall_resume "task" missing
                 (after (apiCall_resume "task" failed Sample.app))))
     = delete "task" (serverError Sample.app).
Proof.
  intros failed missing. split; [vm_compute; reflexivity|].
  apply apiCall_error_then_success. reflexivity.
Defined.

(** ** Leaving and entering labeling *)

Lemma closeLabeling_outcome (host : Host) (options : option (option bool))
    (self : AppStore) :
  closeLabeling host options self
  = (Return tt,
     set_mode explorer
       (set_taskStore (DataStore.unset false (taskStore self))
          (set_annotationStore (DataStore.unset false (annotationStore self))
             self)),
     (if not_false (options ≫= Datatypes.id)
      then [HistoryNavigate None None] else [])
     ++ match
          match currentView self with
          | Some v => tabKey v
          | None =>
              match url_tab host with
              | Some t => Some t
              | None => head (viewsStore_views self) ≫= tabKey
              end
          end
        with
        | Some t => [HistoryForceNavigate t]
        | None => []
        end
     ++ [SDKSetMode explorer; SDKDestroyLSF]).
Proof.
  unfold closeLabeling, unsetTask, SDK_setMode, setMode. step_act.
  unfold currentView. simpl.
  destruct (not_false _); simpl;
    match goal with
    | |- context [match ?o with Some t => _ | None => _ end _] =>
        destruct o
    end; done.
Qed.

Lemma selected_unset (b : bool) (st : DataStore.ListStore) :
  DataStore.selected (DataStore.unset b st) = None.
Proof. unfold DataStore.unset, DataStore.selected. by destruct b. Qed.

(** X19. [closeLabeling] always leaves the application out of labeling:
    whatever the mode and the selection were, afterwards the mode is
    explorer, neither data store has a selection, and [isLabeling] is false.
    The highlighted row and the lists of both stores are kept, and the last
    two calls are the host's [setMode("explorer")] and [destroyLSF()]. With
    [pushState: false] no [{task: null, annotation: null}] state is pushed. *)
Theorem closeLabeling_leaves_labeling (host : Host)
    (options : option (option bool)) (self : AppStore) :
  let r := closeLabeling host options self in
  completion r = Return tt
  /\ mode (after r) = explorer
  /\ isLabeling (after r) = false
  /\ DataStore.selected (taskStore (after r)) = None
  /\ DataStore.selected (annotationStore (after r)) = None
  /\ DataStore.highlightedId (taskStore (after r))
     = DataStore.highlightedId (taskStore self)
  /\ DataStore.highlightedId (annotationStore (after r))
     = DataStore.highlightedId (annotationStore self)
  /\ DataStore.list (taskStore (after r)) = DataStore.list (taskStore self)
  /\ DataStore.list (annotationStore (after r))
     = DataStore.list (annotationStore self)
  /\ (exists before, calls r = before ++ [SDKSetMode explorer; SDKDestroyLSF])
  /\ (options = Some (Some false) ->
      ~ In (HistoryNavigate None None) (calls r)).
Proof.
  cbv zeta. rewrite closeLabeling_outcome. unfold completion, after, calls.
  simpl. repeat split.
  - unfold isLabeling, isLabelStreamMode, dataStore, target. simpl.
    destruct (viewsStore_selected self) as [v|]; simpl;
      [destruct (String.eqb (default "tasks" (tab_target v)) "tasks"); simpl;
       [|destruct (String.eqb (default "tasks" (tab_target v))
                    "annotations"); simpl]|];
      rewrite ?selected_unset; done.
  - eexists. by rewrite app_assoc.
  - intros ->. simpl. intros Hin. apply in_app_or in Hin as [Hin|Hin].
    + destruct (match currentView self with
                | Some v => tabKey v
                | None => _
                end); simpl in Hin; [|done].
      by destruct Hin.
    + simpl in Hin. by destruct Hin as [?|[?|?]].
Qed.

(** X19, witness: the sample application with task 1 selected, closed
    without pushing state. *)
Lemma closeLabeling_leaves_labeling_witness :
  isLabeling Sample.app = true
  /\ isLabeling (after (closeLabeling Sample.host_all (Some (Some false))
                          Sample.app)) = false
  /\ ~ In (HistoryNavigate None None)
         (calls (closeLabeling Sample.host_all (Some (Some false))
                   Sample.app)).
Proof.
  split; [reflexivity|].
  destruct (closeLabeling_leaves_labeling Sample.host_all (Some (Some false))
              Sample.app)
    as (_ & _ & Hlab & _ & _ & _ & _ & _ & _ & _ & Hpush).
  split; [exact Hlab|apply Hpush; reflexivity].
Defined.

(** X20. Without a labeling configuration ([config_has_control_tags] is not
    [true]) neither [startLabelStream] nor [startLabeling] changes the store
    or the mode: each only opens the confirmation dialog. *)
Theorem labeling_needs_configuration (host : Host) (item : option LabelItem)
    (options : option bool) (self : AppStore) :
  labelingIsConfigured self = false ->
  startLabelStream options self
  = (Return tt, self, [ModalConfirm "You're almost there!"])
  /\ startLabeling host item options self
     = (Return tt, self, [ModalConfirm "You're almost there!"]).
Proof.
  intros Hconf. unfold startLabelStream, startLabeling,
    confirmLabelingConfigured. step_act. by rewrite Hconf.
Qed.

(** X20, witness: a project without configuration. *)
Lemma labeling_needs_configuration_witness :
  let self := mkAppStore explorer None [] [] false Sample.empty_store
                Sample.empty_store [] ∅ false in
  mode (after (startLabeling Sample.host_all (Some Sample.selected_task) None
                 self)) = explorer
  /\ calls (startLabelStream None self)
     = [ModalConfirm "You're almost there!"].
Proof.
  intros self.
  destruct (labeling_needs_configuration Sample.host_all
              (Some Sample.selected_task) None self eq_refl) as [Hstream Hlab].
  rewrite Hstream, Hlab. split; reflexivity.
Defined.

(** X21. On a configured project, [startLabelStream] puts the application in
    label-stream mode, in which [isLabeling] holds and [isExplorerMode] does
    not, and touches nothing else; it pushes the [{labeling: 1}] state unless
    [pushState] is [false]. *)
Theorem startLabelStream_enters (options : option bool) (self : AppStore) :
  labelingIsConfigured self = true ->
  let r := startLabelStream options self in
  completion r = Return tt
  /\ after r = set_mode labelstream self
  /\ isLabeling (after r) = true
  /\ isExplorerMode (after r) = false
  /\ calls r = SDKSetMode labelstream
               :: (if not_false options then [HistoryNavigateLabeling]
                   else []).
Proof.
  intros Hconf. cbv zeta. unfold startLabelStream.
  rewrite (act_bind_pure _ _ true self self)
    by (by apply confirmLabelingConfigured_ok).
  change (negb true) with false. cbv beta iota.
  unfold SDK_setMode, setMode, completion, after, calls. step_act.
  destruct (not_false options); simpl; repeat split;
    unfold isLabeling, isLabelStreamMode; simpl; by rewrite orb_true_r.
Qed.

(** X21, witness: the sample application, from the URL (no push). *)
Lemma startLabelStream_enters_witness :
  mode (after (startLabelStream (Some false) Sample.app)) = labelstream
  /\ calls (startLabelStream (Some false) Sample.app)
     = [SDKSetMode labelstream].
Proof.
  destruct (startLabelStream_enters (Some false) Sample.app eq_refl)
    as (_ & Hafter & _ & _ & Hcalls).
  rewrite Hafter, Hcalls. split; reflexivity.
Defined.

(** X22. On a configured project whose selected view has a target other than
    ["tasks"] and ["annotations"], there is no active data store, and
    [startLabeling] throws a [TypeError] when it reads [loadingItem], before
    it has changed anything or called anyone. *)
Theorem startLabeling_without_dataStore (host : Host)
    (item : option LabelItem) (options : option bool) (self : AppStore) :
  labelingIsConfigured self = true ->
  dataStore self = None ->
  startLabeling host item options self
  = (Throw "TypeError: Cannot read properties of null", self, []).
Proof.
  intros Hconf Hds. unfold startLabeling.
  rewrite (act_bind_pure _ _ true self self)
    by (by apply confirmLabelingConfigured_ok).
  change (negb true) with false. cbv beta iota.
  rewrite (act_bind_pure _ _ None self self)
    by (unfold gets; by rewrite Hds).
  done.
Qed.

(** X22, witness: a view whose target is ["predictions"]. *)
Lemma startLabeling_without_dataStore_witness :
  let view := mkTab (Some 7) false (Some "7") (Some "predictions") None None
                None None false in
  let self := set_viewsStore_selected (Some view) Sample.app in
  dataStore self = None
  /\ completion (startLabeling Sample.host_all (Some Sample.selected_task)
                   None self)
     = Throw "TypeError: Cannot read properties of null".
Proof.
  intros view self. split; [reflexivity|].
  by rewrite (startLabeling_without_dataStore Sample.host_all
                (Some Sample.selected_task) None self eq_refl eq_refl).
Defined.

(** ** Selecting a task *)

(** X23. [setTask] without a task id loads and selects nothing: the store is
    unchanged, [loadingData] included, and the only call is the navigation,
    which is left out when [pushState] is [false]. *)
Theorem setTask_without_task (p : TaskParams) (self : AppStore) :
  taskID p = None ->
  setTask p self
  = (Return Done, self,
     if not_false (pushState p)
     then [HistoryNavigate None (or_null (annotationID p))] else []).
Proof.
  intros Htask. unfold setTask. rewrite Htask. step_act.
  by destruct (not_false (pushState p)).
Qed.

(** X23, witness: the history is told that no task is open. *)
Lemma setTask_without_task_witness :
  setTask (mkTaskParams None NoAnnotation None) Sample.app
  = (Return Done, Sample.app, [HistoryNavigate None None]).
Proof.
  exact (setTask_without_task (mkTaskParams None NoAnnotation None)
           Sample.app eq_refl).
Defined.

Lemma setTask_annotation (p : TaskParams) (task : Z) (self : AppStore) :
  taskID p = Some task -> mode self <> labelstream ->
  annotationID p <> NoAnnotation ->
  setTask p self
  = (Return Done,
     set_annotationStore
       (DataStore.setSelected (ref_of_annotation (annotationID p))
          (annotationStore self)).1
       (set_loadingData true self),
     (if not_false (pushState p)
      then [HistoryNavigate (Some task) (or_null (annotationID p))] else [])
     ++ (DataStore.setSelected (ref_of_annotation (annotationID p))
           (annotationStore self)).2).
Proof.
  intros Htask Hmode Hann. unfold setTask, setTask_select.
  rewrite Htask. step_act.
  destruct (annotationID p) as [| |a]; [done| |];
    destruct (mode self) eqn:Hm; try done;
    destruct (not_false (pushState p)); simpl; rewrite ?Hm; simpl;
    try destruct (DataStore.setSelected _ _) as [st out]; simpl;
    by rewrite ?app_nil_r.
Qed.

Lemma setTask_task (p : TaskParams) (task : Z) (self : AppStore) :
  taskID p = Some task -> mode self <> labelstream ->
  annotationID p = NoAnnotation ->
  setTask p self
  = (Return (AwaitLoadTask task false),
     set_taskStore
       (DataStore.setSelected (DataStore.Num task) (taskStore self)).1
       (set_loadingData true self),
     (if not_false (pushState p)
      then [HistoryNavigate (Some task) None] else [])
     ++ (DataStore.setSelected (DataStore.Num task) (taskStore self)).2).
Proof.
  intros Htask Hmode Hann. unfold setTask, setTask_select.
  rewrite Htask, Hann. step_act.
  destruct (mode self) eqn:Hm; [|done|];
    destruct (not_false (pushState p)); simpl; rewrite ?Hm; simpl;
    destruct (DataStore.setSelected _ _) as [st out]; simpl;
    by rewrite ?app_nil_r, ?andb_false_r.
Qed.

(** X24. Outside label-stream mode, [setTask] with a task id selects in one
    store only. With an annotation id that is a number it selects the
    annotation in the annotation store, leaves the task store alone and is
    finished, with [loadingData] still set. With [null] as annotation id it
    takes the same branch ([null !== undefined]): nothing is selected in
    either store, no task is loaded, and [loadingData] stays set. With the
    annotation id [undefined] it selects the task in the task store, leaves
    the annotation store alone and waits for [loadTask], which it calls with
    [select: false]. *)
Theorem setTask_selects_one_store (p : TaskParams) (task : Z)
    (self : AppStore) :
  taskID p = Some task ->
  mode self <> labelstream ->
  let r := setTask p self in
  loadingData (after r) = true
  /\ mode (after r) = mode self
  /\ (forall a, annotationID p = Annotation a ->
       completion r = Return Done
       /\ taskStore (after r) = taskStore self
       /\ annotationStore (after r)
          = (DataStore.setSelected (DataStore.Num a) (annotationStore self)).1)
  /\ (annotationID p = NullAnnotation ->
      completion r = Return Done
      /\ taskStore (after r) = taskStore self
      /\ annotationStore (after r) = annotationStore self)
  /\ (annotationID p = NoAnnotation ->
      completion r = Return (AwaitLoadTask task false)
      /\ annotationStore (after r) = annotationStore self
      /\ taskStore (after r)
         = (DataStore.setSelected (DataStore.Num task) (taskStore self)).1).
Proof.
  intros Htask Hmode. cbv zeta. unfold completion, after.
  destruct (annotationID p) as [| |a] eqn:Hann.
  - rewrite (setTask_task p task self Htask Hmode Hann). simpl.
    split; [done|]. split; [done|]. split; [done|]. split; [done|].
    intros _. repeat split.
  - rewrite (setTask_annotation p task self Htask Hmode) by (by rewrite Hann).
    rewrite Hann. simpl.
    split; [done|]. split; [done|]. split; [done|]. split; [|done].
    intros _. repeat split.
  - rewrite (setTask_annotation p task self Htask Hmode) by (by rewrite Hann).
    rewrite Hann. simpl.
    split; [done|]. split; [done|]. split; [|done].
    intros a' [= <-]. repeat split.
Qed.

(** X24, witness: annotation 5 of task 1 is opened, and then task 1 with
    [null] as annotation id; the task store keeps its selection. *)
Lemma setTask_selects_one_store_witness :
  let p := mkTaskParams (Some 1) (Annotation 5) None in
  let q := mkTaskParams (Some 1) NullAnnotation None in
  completion (setTask p Sample.app) = Return Done
  /\ taskStore (after (setTask p Sample.app)) = taskStore Sample.app
  /\ loadingData (after (setTask p Sample.app)) = true
  /\ completion (setTask q Sample.app) = Return Done
  /\ annotationStore (after (setTask q Sample.app))
     = annotationStore Sample.app.
Proof.
  intros p q.
  assert (mode Sample.app <> labelstream) as Hmode by discriminate.
  destruct (setTask_selects_one_store p 1 Sample.app eq_refl Hmode)
    as (Hloading & _ & Hannotation & _).
  destruct (setTask_selects_one_store q 1 Sample.app eq_refl Hmode)
    as (_ & _ & _ & Hnull & _).
  destruct (Hannotation 5 eq_refl) as (Hdone & Htasks & _).
  destruct (Hnull eq_refl) as (Hdone' & _ & Hann').
  split; [exact Hdone|]. split; [exact Htasks|]. split; [exact Hloading|].
  split; [exact Hdone'|exact Hann'].
Defined.

(** X25. In label-stream mode, [setTask] with a task id selects nothing
    before the next task is loaded: it sets [loadingData], leaves both data
    stores as they are and waits for [loadNextTask]. *)
Theorem setTask_in_labelstream (p : TaskParams) (task : Z) (self : AppStore) :
  taskID p = Some task ->
  mode self = labelstream ->
  let r := setTask p self in
  completion r
  = Return (AwaitLoadNextTask p
              (truthy_num (taskID p) && truthy_annotation (annotationID p)))
  /\ after r = set_loadingData true self
  /\ calls r = (if not_false (pushState p)
                then [HistoryNavigate (Some task) (or_null (annotationID p))]
                else []).
Proof.
  intros Htask Hmode. cbv zeta.
  unfold setTask, completion, after, calls. rewrite Htask. step_act.
  destruct (not_false (pushState p)); simpl; by rewrite Hmode.
Qed.

(** X25, witness: the sample application in label-stream mode. *)
Lemma setTask_in_labelstream_witness :
  let self := set_mode labelstream Sample.app in
  let p := mkTaskParams (Some 2) NoAnnotation (Some false) in
  taskStore (after (setTask p self)) = taskStore Sample.app
  /\ calls (setTask p self) = [].
Proof.
  intros self p.
  destruct (setTask_in_labelstream p 2 self eq_refl eq_refl)
    as (_ & Hafter & Hcalls).
  rewrite Hafter, Hcalls. split; reflexivity.
Defined.

(** ** Invoking an action *)

Lemma findIndex_elem (a : string) (l : array string) :
  (findIndex (String.eqb a) l >=? 0) = bool_decide (a ∈ l).
Proof.
  induction l as [|x r IH]; cbn [findIndex].
  - symmetry. apply bool_decide_eq_false_2, not_elem_of_nil.
  - destruct (String.eqb_spec a x) as [->|Hne].
    + symmetry. apply bool_decide_eq_true_2. left.
    + destruct (findIndex_range (String.eqb a) r) as [Hnone|Hrange].
      * rewrite Hnone in *. symmetry.
        apply bool_decide_eq_false_2. rewrite elem_of_cons.
        symmetry in IH. apply bool_decide_eq_false_1 in IH. tauto.
      * destruct (Z.ltb_spec (findIndex (String.eqb a) r) 0); [lia|].
        destruct (Z.geb_spec (findIndex (String.eqb a) r) 0); [|lia].
        destruct (Z.geb_spec (findIndex (String.eqb a) r + 1) 0); [|lia].
        symmetry in IH. apply bool_decide_eq_true_1 in IH.
        symmetry. apply bool_decide_eq_true_2. by right.
Qed.

(** X26. An action that the host handles with a local callback is never sent
    and never locks the view: [invokeAction] hands the bundle and the view to
    the callback and leaves the store as it is, whether or not the action is
    registered and whether or not a view is selected. *)
Theorem invokeAction_local (host : Host) (actionId : string)
    (body : option Object) (self : AppStore) :
  getAction host actionId = true ->
  invokeAction_start host actionId body self
  = (Return (CallCallback
               (actionParams (currentView self) (labelstream_mode host)
                  actionId)
               (currentView self)),
     self, []).
Proof.
  intros Hcb. unfold invokeAction_start. step_act. rewrite Hcb.
  rewrite andb_false_r. by destruct (currentView self).
Qed.

(** X26, witness: every action of the sample host is local. *)
Lemma invokeAction_local_witness :
  after (invokeAction_start Sample.host_all "delete_tasks" None Sample.app)
  = Sample.app.
Proof.
  by rewrite (invokeAction_local Sample.host_all "delete_tasks" None
                Sample.app eq_refl).
Defined.

(** X27. An action without local callback is sent to the server. On a
    selected view, the view is locked exactly when the action's id is among
    [availableActions], the request names the tab unless the view is
    virtual, and nothing else in the store changes. Without a selected view,
    a registered action throws (there is no view to lock) and an
    unregistered one is sent without tab. *)
Theorem invokeAction_remote (host : Host) (actionId : string)
    (body : option Object) (self : AppStore) :
  getAction host actionId = false ->
  let p := actionParams (currentView self) (labelstream_mode host) actionId in
  let registered := bool_decide (actionId ∈ availableActions self) in
  (forall v, currentView self = Some v ->
     invokeAction_start host actionId body self
     = (Return (AwaitInvokeAction actionId
                  (if tab_virtual v then None else tab_id v) p body),
        (if registered
         then set_viewsStore_selected (Some (set_locked true v)) self
         else self),
        []))
  /\ (currentView self = None ->
      invokeAction_start host actionId body self
      = (if registered
         then (Throw "TypeError: view.lock is not a function", self, [])
         else (Return (AwaitInvokeAction actionId None p body), self, []))).
Proof.
  intros Hcb. cbv zeta. unfold invokeAction_start, lock. step_act.
  rewrite Hcb, findIndex_elem, andb_true_r. split.
  - intros v ->. by destruct (bool_decide _).
  - intros ->. by destruct (bool_decide _).
Qed.

(** X27, witness: a registered action on the selected sample view. *)
Lemma invokeAction_remote_witness :
  let host := mkHost None None (fun _ => false) in
  (viewsStore_selected
     (after (invokeAction_start host "next_task" None Sample.app)))
  = Some (set_locked true Sample.a_tab)
  /\ completion (invokeAction_start host "next_task" None
                   (set_viewsStore_selected None Sample.app))
     = Throw "TypeError: view.lock is not a function".
Proof.
  intros host.
  destruct (invokeAction_remote host "next_task" None Sample.app eq_refl)
    as [Hview _].
  destruct (invokeAction_remote host "next_task" None
              (set_viewsStore_selected None Sample.app) eq_refl)
    as [_ Hnone].
  rewrite (Hview Sample.a_tab eq_refl), (Hnone eq_refl).
  split; reflexivity.
Defined.

(** X28. The reduced bundles are for ["next_task"] under the two stored
    preferences only: for any other action id, and for ["next_task"] under
    any other preference (none stored, or another value), the bundle carries
    all three keys, with the view's ordering, its selection snapshot (the
    empty one by default) and its filters (conjunction ["and"] and no items
    by default). *)
Theorem actionParams_complete (view : option Tab)
    (labelStreamMode : option string) (actionId : string) :
  actionId <> "next_task"
  \/ (labelStreamMode <> Some "all" /\ labelStreamMode <> Some "filtered") ->
  actionParams view labelStreamMode actionId
  = {| params_ordering := Present (view ≫= ordering);
       params_selectedItems := Present (snapshot_of view);
       params_filters :=
         Present
           {| filters_conjunction := default "and" (view ≫= conjunction);
              filters_items := default [] (view ≫= serializedFilters) |} |}.
Proof.
  intros Hother. unfold actionParams.
  destruct (String.eqb_spec actionId "next_task") as [->|Hne]; [|done].
  destruct Hother as [?|[Hall Hfiltered]]; [done|].
  by rewrite !bool_decide_eq_false_2.
Qed.

(** X28, witness: another action under the preference ["all"], and
    ["next_task"] without a stored preference. *)
Lemma actionParams_complete_witness :
  params_filters (actionParams (Some Sample.a_tab) (Some "all") "delete")
  = Present {| filters_conjunction := "and"; filters_items := [] |}
  /\ params_selectedItems (actionParams None None "next_task")
     = Present default_selection.
Proof.
  split.
  - rewrite (actionParams_complete (Some Sample.a_tab) (Some "all") "delete");
      [reflexivity|left; discriminate].
  - rewrite (actionParams_complete None None "next_task");
      [reflexivity|right; split; discriminate].
Defined.

End OrchestratorFurther.
